(** * Flumio launcher: the bootstrap orchestration of [main.ts] and the
      Docker install helper of [dockerInstallHelper.ts]

    The launcher creates a window showing a "Starting Docker stack" page,
    asks the docker manager to start the stack, and branches on the
    status it gets back: a remediation dialog, a Retry/Quit dialog, an
    error box, or the HTTP readiness probe followed by loading the
    application URL.

    The program is embedded as functions in a small monad over an
    explicit [World] (the module-level [mainWindow] variable, the open
    windows, the quit flag and the trace of calls made to Electron and to
    the docker manager).  The answers of the outside world (docker
    manager results, buttons pressed in dialogs) come from an [Env] of
    oracles indexed by the number of earlier calls.  [bootstrapApp] calls
    itself on "Retry" without bound, so it takes a fuel argument: the
    number of passes the run may make.

    Scope of the model.  The Electron calls ([BrowserWindow], [loadURL],
    [dialog], [shell], [app.quit]) are taken to do what their
    documentation says and to succeed; the two docker manager operations
    may return a value or throw.  A handler runs to completion before the
    next one starts, as the specification assumes (no trigger fires in
    the middle of a pass). *)

From Stdlib Require Import String DecimalString List Arith Bool Lia.
Import ListNotations.
Open Scope string_scope.
Open Scope nat_scope.

(* ------------------------------------------------------------------ *)
(** ** Data *)

(** Modelled from the spec: the status type returned by [startStack] is
    declared in [./dockerManager], which is not part of the sources at
    hand.  The three failure literals are the ones [bootstrapApp] compares
    against; the fourth value, for which every comparison fails, is the
    spec's [Ready]. *)
Inductive RuntimeStatus : Type :=
  | docker_missing
  | docker_daemon_off
  | compose_error
  | ready.

Definition status_eqb (a b : RuntimeStatus) : bool :=
  match a, b with
  | docker_missing, docker_missing => true
  | docker_daemon_off, docker_daemon_off => true
  | compose_error, compose_error => true
  | ready, ready => true
  | _, _ => false
  end.

(** [type InstallAction = "retry" | "quit"] *)
Inductive InstallAction : Type := retry | quit.

(** A thrown JavaScript value. *)
Inductive JsError : Type :=
  | Error (message : string)
  | TypeError (message : string).

(** What a window is asked to load: the inline [data:text/html] page
    "Starting Docker stack" built in [bootstrapApp], or an address. *)
Inductive Content : Type :=
  | StartingPage
  | Remote (url : string).

(** The only listener the program registers: [() => { mainWindow = null }]. *)
Inductive Listener : Type := ClearMainWindow.

Record BrowserWindowOptions : Type := {
  width : nat;
  height : nat;
  title : string;
  backgroundColor : string;
  icon : string;
  contextIsolation : bool;
  nodeIntegration : bool
}.

Record MessageBoxOptions : Type := {
  mb_type : string;
  mb_title : string;
  mb_message : string;
  mb_detail : option string;
  mb_buttons : list string;
  mb_defaultId : nat;
  mb_cancelId : nat
}.

Record BrowserWindow : Type := {
  win_id : nat;
  win_options : BrowserWindowOptions;
  win_content : option Content;
  win_closed : list Listener
}.

(** Calls that leave the orchestrator, in the order they are made. *)
Inductive Event : Type :=
  | EvNewWindow (id : nat)
  | EvLoadURL (id : nat) (c : Content)
  | EvStartStack
  | EvWaitForHttpReady (url : string)
  | EvMessageBox (opts : MessageBoxOptions)
  | EvErrorBox (title content : string)
  | EvOpenExternal (url : string)
  | EvOnClosed (id : nat) (l : Listener)
  | EvConsoleError (prefix : string) (err : JsError)
  | EvQuit.

Record World : Type := {
  mainWindow : option nat;          (* let mainWindow: BrowserWindow | null *)
  windows : list BrowserWindow;     (* BrowserWindow.getAllWindows() *)
  next_id : nat;                    (* id of the next window created *)
  quitting : bool;                  (* app.quit() has been called *)
  trace : list Event
}.

(** A settled promise, or one that is still waiting when the fuel ends. *)
Inductive Outcome (A : Type) : Type :=
  | Resolved (a : A)
  | Rejected (e : JsError)
  | Unsettled.
Arguments Resolved {A} a.
Arguments Rejected {A} e.
Arguments Unsettled {A}.

(** Result of one call to the docker manager. *)
Inductive Answer (A : Type) : Type :=
  | Returns (a : A)
  | Throws (e : JsError).
Arguments Returns {A} a.
Arguments Throws {A} e.

(** The outside world.  The [k]-th call (from 0) of each operation gets
    the [k]-th answer. *)
Record Env : Type := {
  platform : string;                               (* process.platform *)
  iconPath : string;        (* join(__dirname, "../assets/logo.png") *)
  startStack_answer : nat -> Answer RuntimeStatus;
  waitForHttpReady_answer : nat -> Answer bool;
  showMessageBox_response : nat -> nat             (* index of the button *)
}.

(* ------------------------------------------------------------------ *)
(** ** Trace bookkeeping *)

Definition is_startStack (e : Event) : bool :=
  match e with EvStartStack => true | _ => false end.
Definition is_waitForHttpReady (e : Event) : bool :=
  match e with EvWaitForHttpReady _ => true | _ => false end.
Definition is_messageBox (e : Event) : bool :=
  match e with EvMessageBox _ => true | _ => false end.
Definition is_errorBox (e : Event) : bool :=
  match e with EvErrorBox _ _ => true | _ => false end.
Definition is_newWindow (e : Event) : bool :=
  match e with EvNewWindow _ => true | _ => false end.
Definition loads_remote (e : Event) : bool :=
  match e with EvLoadURL _ (Remote _) => true | _ => false end.

Definition count (p : Event -> bool) (l : list Event) : nat :=
  length (filter p l).

Definition startStack_calls (w : World) : nat := count is_startStack (trace w).
Definition waitForHttpReady_calls (w : World) : nat :=
  count is_waitForHttpReady (trace w).
Definition showMessageBox_calls (w : World) : nat :=
  count is_messageBox (trace w).
Definition windows_created (w : World) : nat := count is_newWindow (trace w).

(* ------------------------------------------------------------------ *)
(** ** The monad *)

Definition M (A : Type) : Type := World -> Outcome A * World.

Definition ret {A} (a : A) : M A := fun w => (Resolved a, w).
Definition throw {A} (e : JsError) : M A := fun w => (Rejected e, w).
Definition unsettled {A} : M A := fun w => (Unsettled, w).

Definition bind {A B} (m : M A) (k : A -> M B) : M B :=
  fun w =>
    match m w with
    | (Resolved a, w') => k a w'
    | (Rejected e, w') => (Rejected e, w')
    | (Unsettled, w') => (Unsettled, w')
    end.

(** [promise.catch(handler)] *)
Definition catch {A} (m : M A) (handler : JsError -> M A) : M A :=
  fun w =>
    match m w with
    | (Rejected e, w') => handler e w'
    | r => r
    end.

Definition fmap {A B} (f : A -> B) (m : M A) : M B :=
  bind m (fun a => ret (f a)).

Declare Scope js_scope.
Delimit Scope js_scope with js.
Notation "x <- m ;; k" := (bind m (fun x => k))
  (at level 61, m at next level, right associativity) : js_scope.
Notation "m ;; k" := (bind m (fun _ => k))
  (at level 61, right associativity) : js_scope.
Open Scope js_scope.

Definition emit (e : Event) : M unit :=
  fun w => (Resolved tt,
            {| mainWindow := mainWindow w; windows := windows w;
               next_id := next_id w; quitting := quitting w;
               trace := trace w ++ [e] |}).

Definition get_mainWindow : M (option nat) :=
  fun w => (Resolved (mainWindow w), w).

Definition set_mainWindow (v : option nat) : M unit :=
  fun w => (Resolved tt,
            {| mainWindow := v; windows := windows w;
               next_id := next_id w; quitting := quitting w;
               trace := trace w |}).

Definition set_windows (ws : list BrowserWindow) (w : World) : World :=
  {| mainWindow := mainWindow w; windows := ws;
     next_id := next_id w; quitting := quitting w; trace := trace w |}.

(* ------------------------------------------------------------------ *)
(** ** Electron *)

(** [new BrowserWindow(options)]: a fresh window, open and empty. *)
Definition new_BrowserWindow (opts : BrowserWindowOptions) : M nat :=
  fun w =>
    let id := next_id w in
    (Resolved id,
     {| mainWindow := mainWindow w;
        windows := windows w ++
                   [{| win_id := id; win_options := opts;
                       win_content := None; win_closed := [] |}];
        next_id := S id; quitting := quitting w;
        trace := trace w ++ [EvNewWindow id] |}).

Definition update_window (id : nat) (f : BrowserWindow -> BrowserWindow)
  (ws : list BrowserWindow) : list BrowserWindow :=
  map (fun b => if win_id b =? id then f b else b) ws.

Definition set_content (c : Content) (b : BrowserWindow) : BrowserWindow :=
  {| win_id := win_id b; win_options := win_options b;
     win_content := Some c; win_closed := win_closed b |}.

Definition add_closed (l : Listener) (b : BrowserWindow) : BrowserWindow :=
  {| win_id := win_id b; win_options := win_options b;
     win_content := win_content b; win_closed := win_closed b ++ [l] |}.

(** [ref.loadURL(c)]; on [null] the property access throws. *)
Definition loadURL (ref : option nat) (c : Content) : M unit :=
  match ref with
  | None => throw (TypeError "Cannot read properties of null (reading 'loadURL')")
  | Some id =>
      fun w => emit (EvLoadURL id c) (set_windows (update_window id (set_content c) (windows w)) w)
  end.

(** [ref.on("closed", l)] *)
Definition on_closed (ref : option nat) (l : Listener) : M unit :=
  match ref with
  | None => throw (TypeError "Cannot read properties of null (reading 'on')")
  | Some id =>
      fun w => emit (EvOnClosed id l) (set_windows (update_window id (add_closed l) (windows w)) w)
  end.

Definition getAllWindows : M (list BrowserWindow) :=
  fun w => (Resolved (windows w), w).

Definition showErrorBox (title content : string) : M unit :=
  emit (EvErrorBox title content).

Definition console_error (prefix : string) (err : JsError) : M unit :=
  emit (EvConsoleError prefix err).

Definition openExternal (url : string) : M unit :=
  emit (EvOpenExternal url).

Definition app_quit : M unit :=
  fun w => (Resolved tt,
            {| mainWindow := mainWindow w; windows := windows w;
               next_id := next_id w; quitting := true;
               trace := trace w ++ [EvQuit] |}).

(** What Electron does when the user closes window [id]: the window leaves
    the list of open windows and its "closed" listeners run. *)
Definition run_listener (w : World) (l : Listener) : World :=
  match l with
  | ClearMainWindow =>
      {| mainWindow := None; windows := windows w; next_id := next_id w;
         quitting := quitting w; trace := trace w |}
  end.

Definition close_window (id : nat) (w : World) : World :=
  match find (fun b => win_id b =? id) (windows w) with
  | None => w
  | Some b =>
      fold_left run_listener (win_closed b)
        (set_windows (filter (fun b' => negb (win_id b' =? id)) (windows w)) w)
  end.

Section Program.

Variable env : Env.

Definition showMessageBox (opts : MessageBoxOptions) : M nat :=
  fun w =>
    let k := showMessageBox_calls w in
    (emit (EvMessageBox opts) ;; ret (showMessageBox_response env k)) w.

(* ------------------------------------------------------------------ *)
(** ** dockerManager (its two operations, as the orchestrator sees them) *)

Definition answer {A} (a : Answer A) : M A :=
  match a with
  | Returns v => ret v
  | Throws e => throw e
  end.

(** Modelled from the spec: [startStack] is defined in [./dockerManager],
    which is not part of the sources at hand.  It is a black box that
    answers each call with one status, or throws. *)
Definition startStack : M RuntimeStatus :=
  fun w =>
    let k := startStack_calls w in
    (emit EvStartStack ;; answer (startStack_answer env k)) w.

(** Modelled from the spec: [waitForHttpReady], also of [./dockerManager],
    answers each call with a boolean, or throws. *)
Definition waitForHttpReady (url : string) : M bool :=
  fun w =>
    let k := waitForHttpReady_calls w in
    (emit (EvWaitForHttpReady url) ;; answer (waitForHttpReady_answer env k)) w.

(* ------------------------------------------------------------------ *)
(** ** dockerInstallHelper.ts *)

Definition getDockerDownloadUrl : string :=
  "https://www.docker.com/products/docker-desktop/".

Definition LF : string := String (Ascii.ascii_of_nat 10) EmptyString.

Definition dockerMissingMessage : string :=
  if String.eqb (platform env) "darwin" then
    "Docker Desktop is not installed or not available." ++ LF ++ LF ++
    "You need Docker Desktop for Mac to run Flumio Desktop."
  else if String.eqb (platform env) "win32" then
    "Docker Desktop is not installed or not available." ++ LF ++ LF ++
    "You need Docker Desktop for Windows to run Flumio Desktop."
  else
    "Docker is not installed or not available." ++ LF ++ LF ++
    "You need Docker Engine or Docker Desktop to run Flumio Desktop.".

Definition dockerMissingDialog : MessageBoxOptions :=
  {| mb_type := "error";
     mb_title := "Docker is not installed";
     mb_message := dockerMissingMessage;
     mb_detail := None;
     mb_buttons := ["Open Docker download page"; "Quit"];
     mb_defaultId := 0;
     mb_cancelId := 1 |}.

Definition showDockerMissingDialog : M InstallAction :=
  response <- showMessageBox dockerMissingDialog ;;
  if response =? 0 then
    let url := getDockerDownloadUrl in
    openExternal url ;;
    ret quit
  else
    ret quit.

(* ------------------------------------------------------------------ *)
(** ** main.ts *)

Definition APP_URL : string := "http://localhost:8080".

Definition mainWindowOptions : BrowserWindowOptions :=
  {| width := 1280;
     height := 800;
     title := "Flumio";
     backgroundColor := "#020617";
     icon := iconPath env;
     contextIsolation := true;
     nodeIntegration := false |}.

Definition daemonOffDialog : MessageBoxOptions :=
  {| mb_type := "warning";
     mb_title := "Docker is not running";
     mb_message := "Docker Desktop is installed but not running.";
     mb_detail :=
       Some "Start Docker Desktop, wait until it finishes starting, then click “Retry”.";
     mb_buttons := ["Retry"; "Quit"];
     mb_defaultId := 0;
     mb_cancelId := 1 |}.

Definition composeErrorTitle : string := "Failed to start Docker stack".
Definition composeErrorText : string :=
  "Docker Compose returned an error. Open the app from the terminal to see logs, or check Docker Desktop.".
Definition notRespondingTitle : string := "Backend not responding".
Definition notRespondingText : string :=
  "The containers started, but the web server did not respond in time.".
Definition unexpectedTitle : string := "Unexpected error".
Definition unexpectedText : string :=
  "Something went wrong while starting the Docker stack.".

(** [bootstrapApp], with the imported install assistant as a parameter.
    [fuel] bounds the depth of the recursive call made on "Retry". *)
Fixpoint bootstrapAppWith (offerInstall : M InstallAction) (fuel : nat)
  {struct fuel} : M unit :=
  match fuel with
  | 0 => unsettled
  | S fuel' =>
      created <- new_BrowserWindow mainWindowOptions ;;
      set_mainWindow (Some created) ;;
      mw <- get_mainWindow ;;
      loadURL mw StartingPage ;;
      status <- startStack ;;
      if status_eqb status docker_missing then
        offerInstall ;;
        app_quit
      else if status_eqb status docker_daemon_off then
        res <- showMessageBox daemonOffDialog ;;
        if res =? 0 then
          bootstrapAppWith offerInstall fuel'
        else
          app_quit
      else if status_eqb status compose_error then
        showErrorBox composeErrorTitle composeErrorText ;;
        app_quit
      else
        ok <- waitForHttpReady APP_URL ;;
        if negb ok then
          showErrorBox notRespondingTitle notRespondingText ;;
          app_quit
        else
          mw <- get_mainWindow ;;
          loadURL mw (Remote APP_URL) ;;
          mw <- get_mainWindow ;;
          on_closed mw ClearMainWindow
  end.

Definition bootstrapApp (fuel : nat) : M unit :=
  bootstrapAppWith showDockerMissingDialog fuel.

(** The handler both triggers pass to [.catch]. *)
Definition onBootstrapError (err : JsError) : M unit :=
  console_error "Bootstrap error:" err ;;
  showErrorBox unexpectedTitle unexpectedText ;;
  app_quit.

(** [app.on("ready", ...)] *)
Definition on_ready (fuel : nat) : M unit :=
  catch (bootstrapApp fuel) onBootstrapError.

(** [app.on("window-all-closed", ...)] *)
Definition on_window_all_closed : M unit :=
  if negb (String.eqb (platform env) "darwin") then app_quit else ret tt.

(** [app.on("activate", ...)] *)
Definition on_activate (fuel : nat) : M unit :=
  all <- getAllWindows ;;
  if length all =? 0 then
    catch (bootstrapApp fuel) onBootstrapError
  else
    ret tt.

End Program.

(** The world when the process starts. *)
Definition initial_world : World :=
  {| mainWindow := None; windows := []; next_id := 1;
     quitting := false; trace := [] |}.

(* ------------------------------------------------------------------ *)
(** ** Vocabulary of the specification *)

(** The four handling states a pass can enter after the status probe. *)
Inductive Branch : Type :=
  | RemediationPrompt     (* RuntimeMissing-Handling *)
  | RetryQuitPrompt       (* DaemonOff-Handling *)
  | StackErrorNotice      (* StackFailed-Handling *)
  | ReadinessProbing.     (* AwaitingReadiness *)

Definition documented_branch (s : RuntimeStatus) : Branch :=
  match s with
  | docker_missing => RemediationPrompt
  | docker_daemon_off => RetryQuitPrompt
  | compose_error => StackErrorNotice
  | ready => ReadinessProbing
  end.

(** The call by which a pass enters a branch, if the event is one. *)
Definition enters (e : Event) : option Branch :=
  match e with
  | EvMessageBox o =>
      if String.eqb (mb_title o) "Docker is not installed" then Some RemediationPrompt
      else if String.eqb (mb_title o) "Docker is not running" then Some RetryQuitPrompt
      else None
  | EvErrorBox t _ =>
      if String.eqb t "Failed to start Docker stack" then Some StackErrorNotice else None
  | EvWaitForHttpReady _ => Some ReadinessProbing
  | _ => None
  end.

Fixpoint branches_entered (evs : list Event) : list Branch :=
  match evs with
  | [] => []
  | e :: rest =>
      match enters e with
      | Some b => b :: branches_entered rest
      | None => branches_entered rest
      end
  end.

(** The events every pass starts with, for the window it creates. *)
Definition opening (id : nat) : list Event :=
  [EvNewWindow id; EvLoadURL id StartingPage; EvStartStack].

(** The world with further events recorded. *)
Definition record (evs : list Event) (w : World) : World :=
  {| mainWindow := mainWindow w; windows := windows w;
     next_id := next_id w; quitting := quitting w;
     trace := trace w ++ evs |}.

(** The world after [app.quit()]. *)
Definition quitted (w : World) : World :=
  {| mainWindow := mainWindow w; windows := windows w;
     next_id := next_id w; quitting := true;
     trace := trace w ++ [EvQuit] |}.

(** The world of a pass that has created its window, shown the starting
    page and issued [startStack]. *)
Definition probing (env : Env) (w : World) : World :=
  let id := next_id w in
  {| mainWindow := Some id;
     windows := update_window id (set_content StartingPage)
                  (windows w ++
                   [{| win_id := id; win_options := mainWindowOptions env;
                       win_content := None; win_closed := [] |}]);
     next_id := S id;
     quitting := quitting w;
     trace := trace w ++ opening id |}.

(** The world after window [id] has loaded the application and got its
    close listener. *)
Definition launched (id : nat) (w : World) : World :=
  {| mainWindow := mainWindow w;
     windows := update_window id (add_closed ClearMainWindow)
                  (update_window id (set_content (Remote APP_URL)) (windows w));
     next_id := next_id w;
     quitting := quitting w;
     trace := trace w ++ [EvLoadURL id (Remote APP_URL); EvOnClosed id ClearMainWindow] |}.

(** The user presses "Retry" in each of the next [n] passes: the status
    is [docker_daemon_off] and the dialog reports index 0. *)
Definition retries (env : Env) (w : World) (n : nat) : Prop :=
  forall k, k < n ->
    startStack_answer env (startStack_calls w + k) = Returns docker_daemon_off /\
    showMessageBox_response env (showMessageBox_calls w + k) = 0.

(** The pass starting in [w] is one the user asks to retry. *)
Definition retried (env : Env) (w : World) : Prop :=
  startStack_answer env (startStack_calls w) = Returns docker_daemon_off /\
  showMessageBox_response env (showMessageBox_calls w) = 0.

(** How a run may change the world: it only adds to the trace, ids only
    go up, windows created earlier are left as they are, and one window
    is created, and stays open, per [startStack] call. *)
Definition grows (w w' : World) : Prop :=
  (exists rest, trace w' = (trace w ++ rest)%list) /\
  next_id w <= next_id w' /\
  (forall b, In b (windows w) -> win_id b < next_id w -> In b (windows w')) /\
  windows_created w' + startStack_calls w = windows_created w + startStack_calls w' /\
  length (windows w') + windows_created w = length (windows w) + windows_created w'.

(* ------------------------------------------------------------------ *)
(** ** Sample environments *)

(** Docker is installed but stopped at first; the user presses "Retry",
    after which the stack starts and the server answers. *)
Definition env_retry_once : Env :=
  {| platform := "darwin";
     iconPath := "/Applications/Flumio.app/assets/logo.png";
     startStack_answer := fun k => if k =? 0 then Returns docker_daemon_off else Returns ready;
     waitForHttpReady_answer := fun _ => Returns true;
     showMessageBox_response := fun _ => 0 |}.

(** The same, but the user presses "Retry" three times before the
    daemon is up. *)
Definition env_retry_thrice : Env :=
  {| platform := "win32";
     iconPath := "C:/Flumio/assets/logo.png";
     startStack_answer := fun k => if k <? 3 then Returns docker_daemon_off else Returns ready;
     waitForHttpReady_answer := fun _ => Returns true;
     showMessageBox_response := fun _ => 0 |}.

(** The stack starts and the server answers, except that on the second
    [startStack] call Docker is found stopped; the user presses "Retry". *)
Definition env_stopped_on_reopen : Env :=
  {| platform := "darwin";
     iconPath := "/Applications/Flumio.app/assets/logo.png";
     startStack_answer := fun k => if k =? 1 then Returns docker_daemon_off else Returns ready;
     waitForHttpReady_answer := fun _ => Returns true;
     showMessageBox_response := fun _ => 0 |}.

(** The world after a successful launch whose window the user then
    closed (on macOS the process stays alive). *)
Definition world_after_close : World :=
  close_window 1 (snd (on_ready env_stopped_on_reopen 1 initial_world)).

(** An environment in which every call gets the same answer. *)
Definition env_const (status : Answer RuntimeStatus) (http : Answer bool)
  (button : nat) : Env :=
  {| platform := "linux";
     iconPath := "/opt/flumio/assets/logo.png";
     startStack_answer := fun _ => status;
     waitForHttpReady_answer := fun _ => http;
     showMessageBox_response := fun _ => button |}.

(* ------------------------------------------------------------------ *)
(** ** Further bookkeeping for [main.ts] *)

Definition is_quit (e : Event) : bool :=
  match e with EvQuit => true | _ => false end.

Definition quit_calls (w : World) : nat := count is_quit (trace w).
Definition app_loads (w : World) : nat := count loads_remote (trace w).
Definition error_boxes (w : World) : nat := count is_errorBox (trace w).

(* ------------------------------------------------------------------ *)
(** ** The host of [dockerInstallHelper.ts]: disk, network, dialogs

    [downloadFile] and [downloadAndOpenDockerInstaller] use [node:https],
    [node:fs] and a few more Electron calls.  Their world is kept apart
    from the one of [main.ts], which never calls them.  A call of [get]
    may be answered, emit "error", or throw at once; a path may or may
    not be one that can be opened for writing. *)

(** The options these dialogs are given; [buttons] is empty when the
    call passes none. *)
Record BoxOptions : Type := {
  bx_type : string;
  bx_title : string;
  bx_message : string;
  bx_buttons : list string
}.

(** A stream returned by [createWriteStream].  Streams are referred to
    by their position in the list of all streams created. *)
Record WriteStream : Type := {
  ws_path : string;
  ws_closed : bool
}.

(** The response handed to the callback of [get]. *)
Record IncomingMessage : Type := {
  statusCode : option nat;         (* number | undefined *)
  location : option string;        (* headers.location *)
  body : string
}.

(** What a call of [get] leads to: the callback runs with a response,
    the request emits "error", or [get] itself throws before any request
    is made (an address that is relative or not https). *)
Inductive GetAnswer : Type :=
  | Responds (res : IncomingMessage)
  | Fails (err : JsError)
  | Refuses (err : JsError).

Inductive HostEvent : Type :=
  | HvCreateWriteStream (id : nat) (path : string)
  | HvGet (url : string)
  | HvPipe (id : nat)
  | HvClose (id : nat)
  | HvMessageBox (opts : BoxOptions)
  | HvErrorBox (title content : string)
  | HvOpenExternal (url : string)
  | HvOpenPath (path : string).

Record Host : Type := {
  streams : list WriteStream;           (* every stream created so far *)
  files : list (string * string);       (* path and content, newest first *)
  log : list HostEvent
}.

(** The outside world of the helper: the [k]-th request (from 0), made
    for [url], is answered by [https_get_answer k url]. *)
Record HostEnv : Type := {
  electron_env : Env;              (* process.platform, dialog buttons *)
  https_get_answer : nat -> string -> GetAnswer;
  can_open : string -> bool;       (* the path can be opened for writing *)
  tmpdir : string;                 (* os.tmpdir() *)
  path_join : string -> string -> string   (* path.join *)
}.

Definition is_get (e : HostEvent) : bool :=
  match e with HvGet _ => true | _ => false end.
Definition is_box (e : HostEvent) : bool :=
  match e with HvMessageBox _ => true | _ => false end.
Definition touches_disk_or_network (e : HostEvent) : bool :=
  match e with
  | HvCreateWriteStream _ _ | HvGet _ | HvPipe _ | HvClose _ | HvOpenPath _ => true
  | _ => false
  end.

Definition get_calls (h : Host) : nat := length (filter is_get (log h)).
Definition box_calls (h : Host) : nat := length (filter is_box (log h)).

(** The addresses requested so far, oldest first. *)
Fixpoint requested (l : list HostEvent) : list string :=
  match l with
  | [] => []
  | HvGet url :: rest => url :: requested rest
  | _ :: rest => requested rest
  end.

Definition open_streams (h : Host) : nat :=
  length (filter (fun s => negb (ws_closed s)) (streams h)).

Definition read_file (path : string) (h : Host) : option string :=
  match find (fun e => String.eqb (fst e) path) (files h) with
  | Some e => Some (snd e)
  | None => None
  end.

Definition HM (A : Type) : Type := Host -> Outcome A * Host.

Definition hret {A} (a : A) : HM A := fun h => (Resolved a, h).
Definition hthrow {A} (e : JsError) : HM A := fun h => (Rejected e, h).
Definition hunsettled {A} : HM A := fun h => (Unsettled, h).

Definition hbind {A B} (m : HM A) (k : A -> HM B) : HM B :=
  fun h =>
    match m h with
    | (Resolved a, h') => k a h'
    | (Rejected e, h') => (Rejected e, h')
    | (Unsettled, h') => (Unsettled, h')
    end.

(** [try { m } catch (err) { handler }] *)
Definition hcatch {A} (m : HM A) (handler : JsError -> HM A) : HM A :=
  fun h =>
    match m h with
    | (Rejected e, h') => handler e h'
    | r => r
    end.

Declare Scope host_scope.
Delimit Scope host_scope with host.
Notation "x <- m ;; k" := (hbind m (fun x => k))
  (at level 61, m at next level, right associativity) : host_scope.
Notation "m ;; k" := (hbind m (fun _ => k))
  (at level 61, right associativity) : host_scope.

Definition hlog (e : HostEvent) (h : Host) : Host :=
  {| streams := streams h; files := files h; log := log h ++ [e] |}.

Fixpoint close_at (i : nat) (l : list WriteStream) : list WriteStream :=
  match l, i with
  | [], _ => []
  | s :: rest, 0 => {| ws_path := ws_path s; ws_closed := true |} :: rest
  | s :: rest, S j => s :: close_at j rest
  end.

(** [file.close()] *)
Definition close (file : nat) : HM unit :=
  fun h =>
    (Resolved tt,
     {| streams := close_at file (streams h);
        files := files h;
        log := log h ++ [HvClose file] |}).

Definition hostErrorBox (title content : string) : HM unit :=
  fun h => (Resolved tt, hlog (HvErrorBox title content) h).

Definition hostOpenExternal (url : string) : HM unit :=
  fun h => (Resolved tt, hlog (HvOpenExternal url) h).

(** [shell.openPath(path)] *)
Definition openPath (path : string) : HM unit :=
  fun h => (Resolved tt, hlog (HvOpenPath path) h).

(** JavaScript truthiness of [number | undefined] and of
    [string | undefined | null]. *)
Definition truthy_number (n : option nat) : bool :=
  match n with Some (S _) => true | _ => false end.

Definition truthy_string (s : option string) : bool :=
  match s with Some (String _ _) => true | _ => false end.

(** [n >= k] and [n < k], false when [n] is [undefined]. *)
Definition number_ge (n : option nat) (k : nat) : bool :=
  match n with Some c => k <=? c | None => false end.

Definition number_lt (n : option nat) (k : nat) : bool :=
  match n with Some c => c <? k | None => false end.

(** [n !== 200] *)
Definition number_is_not (n : option nat) (k : nat) : bool :=
  match n with Some c => negb (c =? k) | None => true end.

(** A number inside a template string. *)
Definition show_number (n : option nat) : string :=
  match n with
  | Some c => NilEmpty.string_of_uint (Nat.to_uint c)
  | None => "undefined"
  end.

Definition string_value (s : option string) : string :=
  match s with Some v => v | None => EmptyString end.

(** [err?.message ?? String(err)] *)
Definition error_message (err : JsError) : string :=
  match err with Error m => m | TypeError m => m end.

(** The test of the first [if] in the callback of [get]. *)
Definition is_redirect (res : IncomingMessage) : bool :=
  truthy_number (statusCode res) && number_ge (statusCode res) 300 &&
  number_lt (statusCode res) 400 && truthy_string (location res).

Section Installer.

Variable henv : HostEnv.

Local Open Scope host_scope.

Definition hostMessageBox (opts : BoxOptions) : HM nat :=
  fun h =>
    (Resolved (showMessageBox_response (electron_env henv) (box_calls h)),
     hlog (HvMessageBox opts) h).

(** [createWriteStream(path)]: a new stream.  The file is created, or
    emptied if it exists, when the path can be opened; when it cannot,
    the stream is there all the same, but nothing reaches the disk (its
    "error" has no listener). *)
Definition createWriteStream (path : string) : HM nat :=
  fun h =>
    let id := length (streams h) in
    (Resolved id,
     {| streams := streams h ++ [{| ws_path := path; ws_closed := false |}];
        files := if can_open henv path
                 then (path, EmptyString) :: files h else files h;
        log := log h ++ [HvCreateWriteStream id path] |}).

(** [res.pipe(file)] until "finish": the body ends up in the file the
    stream was opened on.  On a stream that could not be opened "finish"
    never comes. *)
Definition pipe (res : IncomingMessage) (file : nat) : HM unit :=
  fun h =>
    match nth_error (streams h) file with
    | Some s =>
        if can_open henv (ws_path s) then
          (Resolved tt,
           {| streams := streams h;
              files := (ws_path s, body res) :: files h;
              log := log h ++ [HvPipe file] |})
        else (Unsettled, hlog (HvPipe file) h)
    | None => (Resolved tt, hlog (HvPipe file) h)
    end.

(** [get(url, callback).on("error", ...)]: the call is made and its
    answer comes back; when [get] throws, so does the call. *)
Definition https_get (url : string) : HM GetAnswer :=
  fun h =>
    match https_get_answer henv (get_calls h) url with
    | Refuses err => (Rejected err, hlog (HvGet url) h)
    | answer => (Resolved answer, hlog (HvGet url) h)
    end.

(** [downloadFile].  [fuel] bounds the number of requests, one per
    redirect followed plus one. *)
Fixpoint downloadFile (fuel : nat) (url targetPath : string) {struct fuel}
  : HM unit :=
  match fuel with
  | 0 => hunsettled
  | S fuel' =>
      file <- createWriteStream targetPath ;;
      answer <- https_get url ;;
      match answer with
      | Responds res =>
          if is_redirect res then
            (* handle redirect *)
            downloadFile fuel' (string_value (location res)) targetPath
          else if number_is_not (statusCode res) 200 then
            hthrow (Error ("Download failed with status " ++
                           show_number (statusCode res)))
          else
            pipe res file ;;
            close file
      | Fails err =>
          close file ;;
          hthrow err
      | Refuses err => hthrow err
      end
  end.

Definition unsupportedTitle : string := "Auto-download not supported".
Definition unsupportedText : string :=
  "Automatic Docker installer download is only supported on macOS and Windows.".

Definition manualDownloadBox : BoxOptions :=
  {| bx_type := "info";
     bx_title := "Download Docker manually";
     bx_message :=
       "Automatic download is not configured. The app will open the Docker website instead.";
     bx_buttons := ["Open website"] |}.

Definition downloadingBox : BoxOptions :=
  {| bx_type := "info";
     bx_title := "Downloading Docker Desktopâ€¦";
     bx_message :=
       "Docker Desktop will be downloaded. Your OS will then ask you to confirm the installation.";
     bx_buttons := ["OK"] |}.

Definition runInstallerBox : BoxOptions :=
  {| bx_type := "info";
     bx_title := "Run the installer";
     bx_message :=
       "Run through the Docker Desktop installer." ++ LF ++ LF ++
       "After installation completes and Docker is running, restart Flumio Desktop.";
     bx_buttons := [] |}.

(** The platform branch of [downloadAndOpenDockerInstaller]: the values
    of [directUrl] and [fileName] it leaves, or [None] where it returns. *)
Definition chooseInstaller : HM (option (option string * string)) :=
  let platform := platform (electron_env henv) in
  if String.eqb platform "darwin" then
    hret (Some (None, "Docker.dmg"))
  else if String.eqb platform "win32" then
    hret (Some (None, "DockerDesktopInstaller.exe"))
  else
    hostErrorBox unsupportedTitle unsupportedText ;;
    hret None.

Definition downloadAndOpenDockerInstaller (fuel : nat) : HM unit :=
  chosen <- chooseInstaller ;;
  match chosen with
  | None => hret tt
  | Some (directUrl, fileName) =>
      if negb (truthy_string directUrl) then
        hostMessageBox manualDownloadBox ;;
        hostOpenExternal getDockerDownloadUrl
      else
        let tmpPath := path_join henv (tmpdir henv) fileName in
        downloadDialog <- hostMessageBox downloadingBox ;;
        if negb (downloadDialog =? 0) then hret tt
        else
          hcatch
            (downloadFile fuel (string_value directUrl) tmpPath ;;
             (* This will open the installer like double-clicking it. *)
             openPath tmpPath ;;
             hostMessageBox runInstallerBox ;;
             hret tt)
            (fun err =>
               hostErrorBox "Failed to download installer"
                 ("Error while downloading Docker Desktop: " ++ error_message err))
  end.

End Installer.

(** A host on which nothing has happened yet. *)
Definition fresh_host : Host := {| streams := []; files := []; log := [] |}.

(** The servers answer a request for [url] with a redirect to [next],
    then to the following hop, and so on: request [k] for [url], request
    [k + 1] for the first hop, ... *)
Fixpoint redirect_chain (henv : HostEnv) (k : nat) (url : string)
  (hops : list string) : Prop :=
  match hops with
  | [] => True
  | next :: rest =>
      (exists res,
          https_get_answer henv k url = Responds res /\
          is_redirect res = true /\
          location res = Some next) /\
      redirect_chain henv (S k) next rest
  end.

(** [n] streams on [path] that were opened and never closed. *)
Definition left_open (path : string) (n : nat) : list WriteStream :=
  repeat {| ws_path := path; ws_closed := false |} n.

(** The host after the stream for a request has been created and [get]
    called. *)
Definition requesting (henv : HostEnv) (url path : string) (h : Host) : Host :=
  {| streams := streams h ++ [{| ws_path := path; ws_closed := false |}];
     files := if can_open henv path
              then (path, EmptyString) :: files h else files h;
     log := log h ++ [HvCreateWriteStream (length (streams h)) path; HvGet url] |}.

(** The host after stream [id] has received [content] and been closed. *)
Definition saved (id : nat) (path content : string) (h : Host) : Host :=
  {| streams := close_at id (streams h);
     files := (path, content) :: files h;
     log := log h ++ [HvPipe id; HvClose id] |}.

(** The host after stream [id] has been closed unused. *)
Definition given_up (id : nat) (h : Host) : Host :=
  {| streams := close_at id (streams h);
     files := files h;
     log := log h ++ [HvClose id] |}.

(** Where a chain of hops from [url] ends. *)
Definition chain_end (url : string) (hops : list string) : string :=
  last hops url.

(** A server map: the answer depends on the address only. *)
Definition host_env_of (plat : string) (server : string -> GetAnswer) : HostEnv :=
  {| electron_env :=
       {| platform := plat; iconPath := "/opt/flumio/assets/logo.png";
          startStack_answer := fun _ => Returns ready;
          waitForHttpReady_answer := fun _ => Returns true;
          showMessageBox_response := fun _ => 0 |};
     https_get_answer := fun _ url => server url;
     can_open := fun path => negb (String.prefix "/tmp/flumio-no-such-dir/" path);
     tmpdir := "/tmp";
     path_join := fun a b => a ++ "/" ++ b |}.

Definition redirect_to (code : nat) (target : string) : GetAnswer :=
  Responds {| statusCode := Some code; location := Some target; body := EmptyString |}.

Definition page (code : nat) (content : string) : GetAnswer :=
  Responds {| statusCode := Some code; location := None; body := content |}.

(** Two redirects, then the installer. *)
Definition mirror_server (url : string) : GetAnswer :=
  if String.eqb url "https://desktop.docker.com/mac/main/arm64/Docker.dmg"
  then redirect_to 302 "https://cdn.docker.com/a/Docker.dmg"
  else if String.eqb url "https://cdn.docker.com/a/Docker.dmg"
  then redirect_to 301 "https://cdn.docker.com/b/Docker.dmg"
  else if String.eqb url "https://cdn.docker.com/b/Docker.dmg"
  then page 200 "dmg-bytes"
  else if String.eqb url "https://cdn.docker.com/moved"
  then page 302 "moved"
  else if String.eqb url "https://cdn.docker.com/loop"
  then redirect_to 302 "https://cdn.docker.com/loop"
  else if String.eqb url "https://cdn.docker.com/down"
  then Fails (Error "connect ECONNREFUSED")
  else if String.eqb url "https://cdn.docker.com/relative"
  then redirect_to 302 "/b/Docker.dmg"
  else if String.eqb url "/b/Docker.dmg"
  then Refuses (TypeError "Invalid URL")
  else page 404 "not found".

(* ------------------------------------------------------------------ *)
(** ** Counting events *)

Lemma count_app (p : Event -> bool) (l l' : list Event) :
  count p (l ++ l') = count p l + count p l'.
Proof.
  unfold count. rewrite filter_app, length_app. reflexivity.
Qed.

Lemma count_cons (p : Event -> bool) (e : Event) (l : list Event) :
  count p (e :: l) = (if p e then 1 else 0) + count p l.
Proof. unfold count. simpl. destruct (p e); reflexivity. Qed.

Lemma count_nil (p : Event -> bool) : count p [] = 0.
Proof. reflexivity. Qed.

#[local] Arguments count p l : simpl never.

Lemma update_window_length id f ws : length (update_window id f ws) = length ws.
Proof. unfold update_window. apply length_map. Qed.

(** A window older than [id] is not touched by an update of [id]. *)
Lemma update_window_keeps id f ws b :
  In b ws -> win_id b < id -> In b (update_window id f ws).
Proof.
  intros Hin Hlt. unfold update_window. apply in_map_iff.
  exists b. split; [ | exact Hin ].
  destruct (Nat.eqb_spec (win_id b) id) as [E | _]; [ lia | reflexivity ].
Qed.

(* ------------------------------------------------------------------ *)
(** ** One pass of [bootstrapApp], case by case *)

(** Brings both sides of an equation between runs to the same shape:
    traces as one append, call counts over the initial trace. *)
Ltac settle :=
  cbn;
  unfold probing, record, quitted, launched, opening, app_quit, emit,
    set_windows, update_window, startStack_calls, waitForHttpReady_calls, showMessageBox_calls;
  cbn; rewrite <- ?app_assoc; cbn;
  rewrite ?count_app, ?count_cons, ?count_nil; cbn; rewrite ?Nat.add_0_r.

Lemma startStack_run env w :
  startStack env w =
    match startStack_answer env (startStack_calls w) with
    | Returns s => (Resolved s, record [EvStartStack] w)
    | Throws e => (Rejected e, record [EvStartStack] w)
    end.
Proof.
  unfold startStack, bind, emit, answer, record. cbn.
  destruct (startStack_answer env (startStack_calls w)); reflexivity.
Qed.

Lemma waitForHttpReady_run env url w :
  waitForHttpReady env url w =
    match waitForHttpReady_answer env (waitForHttpReady_calls w) with
    | Returns b => (Resolved b, record [EvWaitForHttpReady url] w)
    | Throws e => (Rejected e, record [EvWaitForHttpReady url] w)
    end.
Proof.
  unfold waitForHttpReady, bind, emit, answer, record. cbn.
  destruct (waitForHttpReady_answer env (waitForHttpReady_calls w)); reflexivity.
Qed.

Lemma showMessageBox_run env opts w :
  showMessageBox env opts w =
    (Resolved (showMessageBox_response env (showMessageBox_calls w)),
     record [EvMessageBox opts] w).
Proof. reflexivity. Qed.

Lemma showDockerMissingDialog_run env w :
  showDockerMissingDialog env w =
    (Resolved quit,
     record (EvMessageBox (dockerMissingDialog env) ::
             if showMessageBox_response env (showMessageBox_calls w) =? 0
             then [EvOpenExternal getDockerDownloadUrl] else []) w).
Proof.
  unfold showDockerMissingDialog, bind. rewrite showMessageBox_run.
  destruct (showMessageBox_response env (showMessageBox_calls w) =? 0).
  - unfold openExternal, emit, ret, record. cbn.
    rewrite <- app_assoc. reflexivity.
  - reflexivity.
Qed.

(** The calls a pass has made before it asks for the status do not
    count as docker manager or dialog calls. *)
Lemma probing_calls env w :
  startStack_calls (probing env w) = S (startStack_calls w) /\
  waitForHttpReady_calls (probing env w) = waitForHttpReady_calls w /\
  showMessageBox_calls (probing env w) = showMessageBox_calls w.
Proof.
  unfold startStack_calls, waitForHttpReady_calls, showMessageBox_calls,
    probing, opening.
  cbn [trace]. rewrite !count_app, !count_cons, !count_nil. cbn.
  repeat split; lia.
Qed.

(** [bootstrapApp] up to the branch on the status. *)
Lemma bootstrapAppWith_S env assistant fuel w :
  bootstrapAppWith env assistant (S fuel) w =
    match startStack_answer env (startStack_calls w) with
    | Throws e => (Rejected e, probing env w)
    | Returns docker_missing =>
        (assistant ;; app_quit) (probing env w)
    | Returns docker_daemon_off =>
        if showMessageBox_response env (showMessageBox_calls w) =? 0
        then bootstrapAppWith env assistant fuel
               (record [EvMessageBox daemonOffDialog] (probing env w))
        else (Resolved tt,
              quitted (record [EvMessageBox daemonOffDialog] (probing env w)))
    | Returns compose_error =>
        (Resolved tt,
         quitted (record [EvErrorBox composeErrorTitle composeErrorText]
                    (probing env w)))
    | Returns ready =>
        match waitForHttpReady_answer env (waitForHttpReady_calls w) with
        | Throws e =>
            (Rejected e, record [EvWaitForHttpReady APP_URL] (probing env w))
        | Returns false =>
            (Resolved tt,
             quitted (record [EvErrorBox notRespondingTitle notRespondingText]
                        (record [EvWaitForHttpReady APP_URL] (probing env w))))
        | Returns true =>
            (Resolved tt,
             launched (next_id w)
               (record [EvWaitForHttpReady APP_URL] (probing env w)))
        end
    end.
Proof.
  cbn [bootstrapAppWith]. unfold bind. settle.
  destruct (startStack_answer env (count is_startStack (trace w))) as [[ | | | ] | e];
    settle; try reflexivity.
  - destruct (showMessageBox_response env (count is_messageBox (trace w)) =? 0);
      settle; reflexivity.
  - destruct (waitForHttpReady_answer env (count is_waitForHttpReady (trace w)))
      as [[ | ] | e]; settle; reflexivity.
Qed.

(** The same for the program as shipped, where the assistant is
    [showDockerMissingDialog]. *)
Lemma bootstrapApp_missing env fuel w :
  startStack_answer env (startStack_calls w) = Returns docker_missing ->
  bootstrapApp env (S fuel) w =
    (Resolved tt,
     quitted
       (record (EvMessageBox (dockerMissingDialog env) ::
                if showMessageBox_response env (showMessageBox_calls w) =? 0
                then [EvOpenExternal getDockerDownloadUrl] else [])
          (probing env w))).
Proof.
  intros Hs. unfold bootstrapApp. rewrite bootstrapAppWith_S, Hs.
  unfold bind. rewrite showDockerMissingDialog_run.
  destruct (probing_calls env w) as (_ & _ & ->). reflexivity.
Qed.

(** A run is its first pass, followed by a whole new run exactly when
    that pass stops at the recursive call. *)
Lemma pass_then_rest env fuel w :
  bootstrapApp env (S fuel) w =
    match bootstrapApp env 1 w with
    | (Unsettled, w1) => bootstrapApp env fuel w1
    | settled => settled
    end.
Proof.
  destruct (startStack_answer env (startStack_calls w)) as [s | e] eqn:Hs.
  - destruct s.
    + rewrite !bootstrapApp_missing by exact Hs. reflexivity.
    + unfold bootstrapApp. rewrite !bootstrapAppWith_S, Hs.
      destruct (showMessageBox_response env (showMessageBox_calls w) =? 0);
        reflexivity.
    + unfold bootstrapApp. rewrite !bootstrapAppWith_S, Hs. reflexivity.
    + unfold bootstrapApp. rewrite !bootstrapAppWith_S, Hs.
      destruct (waitForHttpReady_answer env (waitForHttpReady_calls w))
        as [[ | ] | e]; reflexivity.
  - unfold bootstrapApp. rewrite !bootstrapAppWith_S, Hs. reflexivity.
Qed.

(* ------------------------------------------------------------------ *)
(** ** The install helper *)

(** C10. Whatever button index the dialog reports, [showDockerMissingDialog]
    resolves to ["quit"], never to ["retry"]; the dialog is shown once, and
    when the index is 0 the Docker download page is opened as well before
    ["quit"] is returned. *)
Theorem showDockerMissingDialog_always_quit :
  forall (env : Env) (w : World),
    let r := showMessageBox_response env (showMessageBox_calls w) in
    let after := showDockerMissingDialog env w in
    fst after = Resolved quit /\
    fst after <> Resolved retry /\
    trace (snd after) =
      (trace w ++
       EvMessageBox (dockerMissingDialog env) ::
       (if r =? 0 then [EvOpenExternal "https://www.docker.com/products/docker-desktop/"]
        else []))%list /\
    mainWindow (snd after) = mainWindow w /\
    windows (snd after) = windows w /\
    quitting (snd after) = quitting w.
Proof.
  intros env w r after. subst r after.
  rewrite showDockerMissingDialog_run. cbn.
  repeat split. discriminate.
Qed.

(* ------------------------------------------------------------------ *)
(** ** The branch on the status *)

(** C1. One pass (a run with fuel 1, which stops where the pass would
    start itself again) begins with the window, the starting page and the
    status probe; after that it enters the branch documented for the
    status it got — the remediation dialog for [docker_missing], the
    Retry/Quit dialog for [docker_daemon_off], the stack error box for
    [compose_error], the readiness probe for the remaining status — and
    no other.  A longer run is this pass followed by a fresh run, and
    that happens only after "Retry" in the daemon-off dialog. *)
Theorem status_selects_documented_branch :
  forall (env : Env) (w : World) (s : RuntimeStatus),
    startStack_answer env (startStack_calls w) = Returns s ->
    (exists evs,
        trace (snd (bootstrapApp env 1 w)) =
          (trace w ++
           [EvNewWindow (next_id w); EvLoadURL (next_id w) StartingPage;
            EvStartStack] ++ evs)%list /\
        branches_entered evs = [documented_branch s]) /\
    (forall fuel,
        bootstrapApp env (S fuel) w =
          match bootstrapApp env 1 w with
          | (Unsettled, w1) => bootstrapApp env fuel w1
          | settled => settled
          end) /\
    (fst (bootstrapApp env 1 w) = Unsettled <->
     s = docker_daemon_off /\
     showMessageBox_response env (showMessageBox_calls w) = 0).
Proof.
  intros env w s Hs. split; [ | split ].
  - destruct s.
    + rewrite bootstrapApp_missing by exact Hs.
      destruct (showMessageBox_response env (showMessageBox_calls w) =? 0);
        eexists; (split; [ settle; reflexivity | reflexivity ]).
    + unfold bootstrapApp. rewrite bootstrapAppWith_S, Hs.
      destruct (showMessageBox_response env (showMessageBox_calls w) =? 0);
        eexists; (split; [ settle; reflexivity | reflexivity ]).
    + unfold bootstrapApp. rewrite bootstrapAppWith_S, Hs.
      eexists; (split; [ settle; reflexivity | reflexivity ]).
    + unfold bootstrapApp. rewrite bootstrapAppWith_S, Hs.
      destruct (waitForHttpReady_answer env (waitForHttpReady_calls w))
        as [[ | ] | e];
        eexists; (split; [ settle; reflexivity | reflexivity ]).
  - intros fuel. apply pass_then_rest.
  - destruct s.
    + rewrite bootstrapApp_missing by exact Hs. cbn.
      split; [ discriminate | intros [E _]; discriminate E ].
    + unfold bootstrapApp. rewrite bootstrapAppWith_S, Hs.
      destruct (Nat.eqb_spec (showMessageBox_response env (showMessageBox_calls w)) 0)
        as [E | N]; cbn.
      * split; [ intros _; split; [ reflexivity | exact E ] | reflexivity ].
      * split; [ discriminate | intros [_ E]; contradiction ].
    + unfold bootstrapApp. rewrite bootstrapAppWith_S, Hs. cbn.
      split; [ discriminate | intros [E _]; discriminate E ].
    + unfold bootstrapApp. rewrite bootstrapAppWith_S, Hs.
      destruct (waitForHttpReady_answer env (waitForHttpReady_calls w))
        as [[ | ] | e]; cbn;
        (split; [ discriminate | intros [E _]; discriminate E ]).
Qed.

Lemma status_selects_documented_branch_witness :
  startStack_answer (env_const (Returns compose_error) (Returns true) 1)
    (startStack_calls initial_world) = Returns compose_error /\
  exists evs,
    trace (snd (bootstrapApp (env_const (Returns compose_error) (Returns true) 1)
                  1 initial_world)) =
      (trace initial_world ++
       [EvNewWindow 1; EvLoadURL 1 StartingPage; EvStartStack] ++ evs)%list /\
    branches_entered evs = [StackErrorNotice].
Proof.
  split; [ reflexivity | ].
  exact (proj1 (status_selects_documented_branch
                  (env_const (Returns compose_error) (Returns true) 1)
                  initial_world compose_error eq_refl)).
Defined.

(* ------------------------------------------------------------------ *)
(** ** Windows and listeners *)

Lemma update_window_inv id f ws b :
  (forall x, win_id (f x) = win_id x) ->
  In b (update_window id f ws) -> win_id b = id ->
  exists x, In x ws /\ win_id x = id /\ b = f x.
Proof.
  intros Hf Hin Hid. unfold update_window in Hin.
  apply in_map_iff in Hin. destruct Hin as (x & Hx & Hin).
  destruct (Nat.eqb_spec (win_id x) id) as [E | N].
  - exists x. auto.
  - subst b. contradiction.
Qed.

Lemma update_window_hits id f ws x :
  In x ws -> win_id x = id -> In (f x) (update_window id f ws).
Proof.
  intros Hin Hid. unfold update_window. apply in_map_iff.
  exists x. split; [ | exact Hin ].
  rewrite Hid, Nat.eqb_refl. reflexivity.
Qed.

Lemma listeners_clear_mainWindow (ls : list Listener) (w : World) :
  mainWindow (fold_left run_listener ls w) =
    match ls with [] => mainWindow w | _ :: _ => None end.
Proof.
  revert w. induction ls as [ | l ls IH]; intros w; [ reflexivity | ].
  cbn [fold_left]. rewrite IH. destruct l, ls; reflexivity.
Qed.

(** Closing a window that is open and has a listener clears [mainWindow]. *)
Lemma close_window_clears id w :
  (exists b, In b (windows w) /\ win_id b = id) ->
  (forall b, In b (windows w) -> win_id b = id -> win_closed b <> []) ->
  mainWindow (close_window id w) = None.
Proof.
  intros (b0 & Hin0 & Hid0) Hall. unfold close_window.
  destruct (find (fun b => win_id b =? id) (windows w)) as [b | ] eqn:Hf.
  - apply find_some in Hf. destruct Hf as [Hin Hid].
    apply Nat.eqb_eq in Hid. rewrite listeners_clear_mainWindow.
    specialize (Hall b Hin Hid). destruct (win_closed b); congruence.
  - apply (find_none _ _ Hf) in Hin0. rewrite Hid0, Nat.eqb_refl in Hin0.
    discriminate.
Qed.

(** The window created by a pass is open while the pass probes, and
    every open window carrying its id shows the starting page. *)
Lemma probing_window env w :
  let id := next_id w in
  (exists b, In b (windows (probing env w)) /\ win_id b = id) /\
  (forall b, In b (windows (probing env w)) -> win_id b = id ->
             win_content b = Some StartingPage).
Proof.
  cbn. split.
  - eexists. split.
    + apply update_window_hits with (x := {| win_id := next_id w;
          win_options := mainWindowOptions env; win_content := None;
          win_closed := [] |}); [ | reflexivity ].
      apply in_or_app. right. left. reflexivity.
    + reflexivity.
  - intros b Hin Hid.
    apply update_window_inv in Hin; [ | reflexivity | exact Hid ].
    destruct Hin as (x & _ & _ & ->). reflexivity.
Qed.

(* ------------------------------------------------------------------ *)
(** ** The terminal branches *)

(** The orchestrator never looks at what the install assistant returns. *)
Lemma bootstrapAppWith_ignores_result env assistant
  (f : InstallAction -> InstallAction) fuel :
  forall w,
    bootstrapAppWith env (fmap f assistant) fuel w =
    bootstrapAppWith env assistant fuel w.
Proof.
  induction fuel as [ | fuel IH]; intros w; [ reflexivity | ].
  rewrite !bootstrapAppWith_S.
  destruct (startStack_answer env (startStack_calls w)) as [[ | | | ] | e];
    try reflexivity.
  - unfold fmap, bind, ret.
    destruct (assistant (probing env w)) as [[a | e | ] w1]; reflexivity.
  - rewrite IH. reflexivity.
Qed.

(** C3. When the status is [docker_missing] the pass shows the install
    dialog and then calls [app.quit()], whichever button index the dialog
    reports (index 0 additionally opens the download page); nothing else
    happens in the pass.  The value the assistant resolves to is not used:
    post-processing it with any function leaves the run unchanged, for
    any assistant. *)
Theorem runtime_missing_always_quits :
  forall (env : Env) (fuel : nat) (w : World),
    startStack_answer env (startStack_calls w) = Returns docker_missing ->
    let r := showMessageBox_response env (showMessageBox_calls w) in
    (exists w',
        bootstrapApp env (S fuel) w = (Resolved tt, w') /\
        quitting w' = true /\
        trace w' =
          (trace w ++
           [EvNewWindow (next_id w); EvLoadURL (next_id w) StartingPage;
            EvStartStack; EvMessageBox (dockerMissingDialog env)] ++
           (if r =? 0 then [EvOpenExternal getDockerDownloadUrl] else []) ++
           [EvQuit])%list) /\
    (forall (assistant : M InstallAction) (f : InstallAction -> InstallAction),
        bootstrapAppWith env (fmap f assistant) (S fuel) w =
        bootstrapAppWith env assistant (S fuel) w).
Proof.
  intros env fuel w Hs r. split.
  - eexists. split; [ apply bootstrapApp_missing; exact Hs | ].
    split; [ reflexivity | ].
    subst r. destruct (showMessageBox_response env (showMessageBox_calls w) =? 0);
      settle; reflexivity.
  - intros assistant f. apply bootstrapAppWith_ignores_result.
Qed.

Lemma runtime_missing_always_quits_witness :
  startStack_answer (env_const (Returns docker_missing) (Returns true) 0)
    (startStack_calls initial_world) = Returns docker_missing /\
  exists w',
    bootstrapApp (env_const (Returns docker_missing) (Returns true) 0) 1
      initial_world = (Resolved tt, w') /\
    quitting w' = true /\
    trace w' =
      [EvNewWindow 1; EvLoadURL 1 StartingPage; EvStartStack;
       EvMessageBox
         (dockerMissingDialog (env_const (Returns docker_missing) (Returns true) 0));
       EvOpenExternal getDockerDownloadUrl; EvQuit].
Proof.
  split; [ reflexivity | ].
  exact (proj1 (runtime_missing_always_quits
                  (env_const (Returns docker_missing) (Returns true) 0)
                  0 initial_world eq_refl)).
Defined.

(** C4. When the status is [docker_daemon_off] and the dialog reports
    any button other than "Retry" (index 0) — "Quit" is index 1, which is
    also the cancel index — the pass calls [app.quit()] and ends: the
    dialog and the quit are all that follows the probe, and
    [waitForHttpReady] is not called. *)
Theorem daemon_off_quit_skips_readiness_probe :
  forall (env : Env) (fuel : nat) (w : World),
    startStack_answer env (startStack_calls w) = Returns docker_daemon_off ->
    showMessageBox_response env (showMessageBox_calls w) <> 0 ->
    exists w',
      bootstrapApp env (S fuel) w = (Resolved tt, w') /\
      quitting w' = true /\
      trace w' =
        (trace w ++
         [EvNewWindow (next_id w); EvLoadURL (next_id w) StartingPage;
          EvStartStack; EvMessageBox daemonOffDialog; EvQuit])%list /\
      waitForHttpReady_calls w' = waitForHttpReady_calls w.
Proof.
  intros env fuel w Hs Hr.
  unfold bootstrapApp. rewrite bootstrapAppWith_S, Hs.
  apply Nat.eqb_neq in Hr. rewrite Hr.
  eexists. split; [ reflexivity | ].
  split; [ reflexivity | ].
  split; settle; reflexivity.
Qed.

Lemma daemon_off_quit_skips_readiness_probe_witness :
  exists w',
    bootstrapApp (env_const (Returns docker_daemon_off) (Returns true) 1) 1
      initial_world = (Resolved tt, w') /\
    quitting w' = true /\
    trace w' =
      [EvNewWindow 1; EvLoadURL 1 StartingPage; EvStartStack;
       EvMessageBox daemonOffDialog; EvQuit] /\
    waitForHttpReady_calls w' = 0.
Proof.
  apply (daemon_off_quit_skips_readiness_probe
           (env_const (Returns docker_daemon_off) (Returns true) 1)
           0 initial_world).
  - reflexivity.
  - cbn. discriminate.
Defined.

(* ------------------------------------------------------------------ *)
(** ** The readiness branch *)

Lemma launched_window id w :
  (exists b, In b (windows w) /\ win_id b = id) ->
  (exists b, In b (windows (launched id w)) /\ win_id b = id) /\
  (forall b, In b (windows (launched id w)) -> win_id b = id ->
             win_content b = Some (Remote APP_URL) /\
             In ClearMainWindow (win_closed b)).
Proof.
  intros (x & Hin & Hid). cbn. split.
  - exists (add_closed ClearMainWindow (set_content (Remote APP_URL) x)).
    split; [ | exact Hid ].
    apply update_window_hits; [ | exact Hid ].
    apply update_window_hits; assumption.
  - intros b Hb Hbid.
    apply update_window_inv in Hb; [ | reflexivity | exact Hbid ].
    destruct Hb as (y & Hy & Hyid & ->).
    apply update_window_inv in Hy; [ | reflexivity | exact Hyid ].
    destruct Hy as (z & _ & _ & ->). cbn. split; [ reflexivity | ].
    apply in_or_app. right. left. reflexivity.
Qed.

(** C6. When the status is the ready one and [waitForHttpReady] resolves
    to [true], the pass resolves without calling [app.quit()]: after the
    probe it loads [APP_URL] into the window it created and registers the
    "closed" listener on it, and does nothing else — in particular it
    shows no error box.  The window then displays [APP_URL], is still the
    one [mainWindow] refers to, and closing it sets [mainWindow] to
    [null]. *)
Theorem ready_and_responding_launches :
  forall (env : Env) (fuel : nat) (w : World),
    startStack_answer env (startStack_calls w) = Returns ready ->
    waitForHttpReady_answer env (waitForHttpReady_calls w) = Returns true ->
    let id := next_id w in
    exists w',
      bootstrapApp env (S fuel) w = (Resolved tt, w') /\
      trace w' =
        (trace w ++
         [EvNewWindow id; EvLoadURL id StartingPage; EvStartStack;
          EvWaitForHttpReady "http://localhost:8080";
          EvLoadURL id (Remote "http://localhost:8080");
          EvOnClosed id ClearMainWindow])%list /\
      count is_errorBox (trace w') = count is_errorBox (trace w) /\
      quitting w' = quitting w /\
      mainWindow w' = Some id /\
      (exists b, In b (windows w') /\ win_id b = id) /\
      (forall b, In b (windows w') -> win_id b = id ->
                 win_content b = Some (Remote "http://localhost:8080") /\
                 In ClearMainWindow (win_closed b)) /\
      mainWindow (close_window id w') = None.
Proof.
  intros env fuel w Hs Hr id.
  unfold bootstrapApp. rewrite bootstrapAppWith_S, Hs, Hr.
  eexists. split; [ reflexivity | ].
  destruct (launched_window id (record [EvWaitForHttpReady APP_URL] (probing env w)))
    as [Hex Hall]; [ apply (probing_window env w) | ].
  split; [ settle; reflexivity | ].
  split; [ settle; reflexivity | ].
  split; [ reflexivity | ].
  split; [ reflexivity | ].
  split; [ exact Hex | ].
  split; [ exact Hall | ].
  apply close_window_clears; [ exact Hex | ].
  intros b Hb Hbid. destruct (Hall b Hb Hbid) as [_ Hl].
  destruct (win_closed b); [ contradiction | discriminate ].
Qed.

Lemma ready_and_responding_launches_witness :
  exists w',
    bootstrapApp (env_const (Returns ready) (Returns true) 1) 1 initial_world =
      (Resolved tt, w') /\
    trace w' =
      [EvNewWindow 1; EvLoadURL 1 StartingPage; EvStartStack;
       EvWaitForHttpReady "http://localhost:8080";
       EvLoadURL 1 (Remote "http://localhost:8080");
       EvOnClosed 1 ClearMainWindow] /\
    count is_errorBox (trace w') = 0 /\
    quitting w' = false /\
    mainWindow w' = Some 1 /\
    (exists b, In b (windows w') /\ win_id b = 1) /\
    (forall b, In b (windows w') -> win_id b = 1 ->
               win_content b = Some (Remote "http://localhost:8080") /\
               In ClearMainWindow (win_closed b)) /\
    mainWindow (close_window 1 w') = None.
Proof.
  apply (ready_and_responding_launches
           (env_const (Returns ready) (Returns true) 1) 0 initial_world);
    reflexivity.
Defined.

(** C7. When the status is the ready one and [waitForHttpReady] resolves
    to [false], the pass shows the "Backend not responding" error box and
    calls [app.quit()]; the window keeps the starting page ([APP_URL] is
    never loaded), no dialog with a "Retry" button is shown and
    [startStack] is not called again. *)
Theorem ready_but_silent_quits :
  forall (env : Env) (fuel : nat) (w : World),
    startStack_answer env (startStack_calls w) = Returns ready ->
    waitForHttpReady_answer env (waitForHttpReady_calls w) = Returns false ->
    let id := next_id w in
    exists w',
      bootstrapApp env (S fuel) w = (Resolved tt, w') /\
      quitting w' = true /\
      trace w' =
        (trace w ++
         [EvNewWindow id; EvLoadURL id StartingPage; EvStartStack;
          EvWaitForHttpReady "http://localhost:8080";
          EvErrorBox "Backend not responding"
            "The containers started, but the web server did not respond in time.";
          EvQuit])%list /\
      count loads_remote (trace w') = count loads_remote (trace w) /\
      (forall b, In b (windows w') -> win_id b = id ->
                 win_content b = Some StartingPage) /\
      showMessageBox_calls w' = showMessageBox_calls w /\
      startStack_calls w' = S (startStack_calls w).
Proof.
  intros env fuel w Hs Hr id.
  unfold bootstrapApp. rewrite bootstrapAppWith_S, Hs, Hr.
  eexists. split; [ reflexivity | ].
  split; [ reflexivity | ].
  split; [ settle; reflexivity | ].
  split; [ settle; reflexivity | ].
  split; [ apply (probing_window env w) | ].
  split; settle; lia.
Qed.

Lemma ready_but_silent_quits_witness :
  exists w',
    bootstrapApp (env_const (Returns ready) (Returns false) 0) 1 initial_world =
      (Resolved tt, w') /\
    quitting w' = true /\
    trace w' =
      [EvNewWindow 1; EvLoadURL 1 StartingPage; EvStartStack;
       EvWaitForHttpReady "http://localhost:8080";
       EvErrorBox "Backend not responding"
         "The containers started, but the web server did not respond in time.";
       EvQuit] /\
    count loads_remote (trace w') = 0 /\
    (forall b, In b (windows w') -> win_id b = 1 ->
               win_content b = Some StartingPage) /\
    showMessageBox_calls w' = 0 /\
    startStack_calls w' = 1.
Proof.
  apply (ready_but_silent_quits
           (env_const (Returns ready) (Returns false) 0) 0 initial_world);
    reflexivity.
Defined.

(* ------------------------------------------------------------------ *)
(** ** Retrying *)

(** A pass that is retried hands over to a fresh run. *)
Lemma bootstrapApp_retry env fuel w :
  retried env w ->
  bootstrapApp env (S fuel) w =
    bootstrapApp env fuel (record [EvMessageBox daemonOffDialog] (probing env w)).
Proof.
  intros [Hs Hr]. unfold bootstrapApp. rewrite bootstrapAppWith_S, Hs, Hr.
  reflexivity.
Qed.

Lemma retry_calls env w :
  let w1 := record [EvMessageBox daemonOffDialog] (probing env w) in
  startStack_calls w1 = S (startStack_calls w) /\
  showMessageBox_calls w1 = S (showMessageBox_calls w) /\
  waitForHttpReady_calls w1 = waitForHttpReady_calls w /\
  windows_created w1 = S (windows_created w) /\
  next_id w1 = S (next_id w).
Proof.
  unfold windows_created. repeat split; settle; lia.
Qed.

(** After [n] retries the run continues as a fresh run, [n] calls of
    [startStack] and [n] dialogs later. *)
Lemma bootstrapApp_retries env n :
  forall fuel w,
    retries env w n ->
    exists wn,
      bootstrapApp env (n + fuel) w = bootstrapApp env fuel wn /\
      startStack_calls wn = startStack_calls w + n /\
      showMessageBox_calls wn = showMessageBox_calls w + n /\
      waitForHttpReady_calls wn = waitForHttpReady_calls w /\
      windows_created wn = windows_created w + n.
Proof.
  induction n as [ | n IH]; intros fuel w Hn.
  - exists w. repeat split; lia.
  - assert (H0 : retried env w).
    { destruct (Hn 0) as [Hs Hr]; [ lia | ].
      rewrite Nat.add_0_r in Hs, Hr. split; assumption. }
    destruct (retry_calls env w) as (Es & Em & Ew & Ec & _).
    destruct (IH fuel (record [EvMessageBox daemonOffDialog] (probing env w)))
      as (wn & Hrun & Hs & Hm & Hw & Hc).
    { intros k Hk. rewrite Es, Em. destruct (Hn (S k)) as [Hs Hr]; [ lia | ].
      rewrite Nat.add_succ_r in Hs, Hr. split; assumption. }
    exists wn. cbn [Nat.add]. rewrite bootstrapApp_retry by exact H0.
    repeat split; [ exact Hrun | lia .. ].
Qed.

(** A pass that is not retried settles, after one [startStack] call and
    one new window. *)
Lemma pass_without_retry env fuel w :
  ~ retried env w ->
  exists out w',
    bootstrapApp env (S fuel) w = (out, w') /\
    out <> Unsettled /\
    startStack_calls w' = S (startStack_calls w) /\
    windows_created w' = S (windows_created w) /\
    length (windows w') = S (length (windows w)).
Proof.
  intros Hno. unfold retried in Hno.
  destruct (startStack_answer env (startStack_calls w)) as [s | e] eqn:Hs.
  - destruct s.
    + rewrite bootstrapApp_missing by exact Hs.
      do 2 eexists. split; [ reflexivity | ]. split; [ discriminate | ].
      unfold windows_created.
      destruct (showMessageBox_response env (showMessageBox_calls w) =? 0);
        repeat split; settle; rewrite ?length_map, ?length_app; cbn; lia.
    + unfold bootstrapApp. rewrite bootstrapAppWith_S, Hs.
      destruct (Nat.eqb_spec (showMessageBox_response env (showMessageBox_calls w)) 0)
        as [E | N]; [ exfalso; apply Hno; split; [ reflexivity | exact E ] | ].
      do 2 eexists. split; [ reflexivity | ]. split; [ discriminate | ].
      unfold windows_created.
      repeat split; settle; rewrite ?length_map, ?length_app; cbn; lia.
    + unfold bootstrapApp. rewrite bootstrapAppWith_S, Hs.
      do 2 eexists. split; [ reflexivity | ]. split; [ discriminate | ].
      unfold windows_created.
      repeat split; settle; rewrite ?length_map, ?length_app; cbn; lia.
    + unfold bootstrapApp. rewrite bootstrapAppWith_S, Hs.
      unfold windows_created.
      destruct (waitForHttpReady_answer env (waitForHttpReady_calls w))
        as [[ | ] | e];
        (do 2 eexists; split; [ reflexivity | ]; split; [ discriminate | ];
         repeat split; settle; rewrite ?length_map, ?length_app; cbn; lia).
  - unfold bootstrapApp. rewrite bootstrapAppWith_S, Hs.
    do 2 eexists. split; [ reflexivity | ]. split; [ discriminate | ].
    unfold windows_created.
    repeat split; settle; rewrite ?length_map, ?length_app; cbn; lia.
Qed.

(** C5. If, starting from any world, the user presses "Retry" in [N]
    consecutive passes and the pass after those is not retried, then a
    run with enough fuel for [N + 1] passes settles and has called
    [startStack] exactly [N + 1] times: once for the first pass and once
    more per retry.  [N] is arbitrary. *)
Theorem retry_n_times_calls_start_n_more_times :
  forall (env : Env) (N fuel : nat) (w : World),
    (forall k, k < N ->
       startStack_answer env (startStack_calls w + k) = Returns docker_daemon_off /\
       showMessageBox_response env (showMessageBox_calls w + k) = 0) ->
    ~ (startStack_answer env (startStack_calls w + N) = Returns docker_daemon_off /\
       showMessageBox_response env (showMessageBox_calls w + N) = 0) ->
    N < fuel ->
    exists out w',
      bootstrapApp env fuel w = (out, w') /\
      out <> Unsettled /\
      startStack_calls w' = startStack_calls w + 1 + N.
Proof.
  intros env N fuel w Hretries Hlast Hfuel.
  replace fuel with (N + S (fuel - S N)) by lia.
  destruct (bootstrapApp_retries env N (S (fuel - S N)) w Hretries)
    as (wn & Hrun & Hs & Hm & _ & _).
  rewrite Hrun.
  destruct (pass_without_retry env (fuel - S N) wn) as (out & w' & Hp & Hout & Hs' & _).
  { unfold retried. rewrite Hs, Hm. exact Hlast. }
  exists out, w'. split; [ exact Hp | ]. split; [ exact Hout | lia ].
Qed.

Lemma retry_n_times_calls_start_n_more_times_witness :
  exists out w',
    bootstrapApp env_retry_thrice 5 initial_world = (out, w') /\
    out <> Unsettled /\
    startStack_calls w' = 0 + 1 + 3.
Proof.
  apply (retry_n_times_calls_start_n_more_times env_retry_thrice 3 5 initial_world).
  - intros k Hk.
    destruct k as [ | [ | [ | k]]]; [ split; reflexivity .. | lia ].
  - cbn. intros [H _]. discriminate H.
  - lia.
Defined.

(* ------------------------------------------------------------------ *)
(** ** What any run leaves behind *)

Lemma grows_refl w : grows w w.
Proof.
  unfold grows. repeat split; try lia; [ | auto ].
  exists []. rewrite app_nil_r. reflexivity.
Qed.

Lemma grows_trans w1 w2 w3 : grows w1 w2 -> grows w2 w3 -> grows w1 w3.
Proof.
  intros ((r1 & T1) & N1 & F1 & C1 & L1) ((r2 & T2) & N2 & F2 & C2 & L2).
  unfold grows. repeat split; try lia.
  - exists (r1 ++ r2)%list. rewrite T2, T1, app_assoc. reflexivity.
  - intros b Hb Hlt. apply F2; [ apply F1; assumption | lia ].
Qed.

(** Recording events that create no window and call no [startStack]. *)
Lemma grows_record evs w :
  count is_newWindow evs = 0 -> count is_startStack evs = 0 ->
  grows w (record evs w).
Proof.
  intros Hn Hs. unfold grows, windows_created, startStack_calls. cbn.
  rewrite !count_app, Hn, Hs. repeat split; try lia; [ | auto ].
  exists evs. reflexivity.
Qed.

Lemma grows_quitted w : grows w (quitted w).
Proof.
  unfold grows, windows_created, startStack_calls. cbn.
  rewrite !count_app, !count_cons, !count_nil. cbn.
  repeat split; try lia; [ | auto ].
  exists [EvQuit]. reflexivity.
Qed.

Lemma grows_probing env w : grows w (probing env w).
Proof.
  unfold grows, windows_created, startStack_calls, probing, opening.
  cbn [trace windows next_id].
  rewrite !count_app, !count_cons, !count_nil, update_window_length, length_app.
  cbn. repeat split; try lia.
  - eexists. reflexivity.
  - intros b Hb Hlt. apply update_window_keeps; [ | exact Hlt ].
    apply in_or_app. left. exact Hb.
Qed.

(** Launching touches only the window of the pass. *)
Lemma grows_launched env w evs :
  count is_newWindow evs = 0 -> count is_startStack evs = 0 ->
  grows w (launched (next_id w) (record evs (probing env w))).
Proof.
  intros Hn Hs.
  unfold grows, windows_created, startStack_calls, launched, record, probing, opening.
  cbn [trace windows next_id].
  rewrite !count_app, !count_cons, !count_nil, Hn, Hs,
    !update_window_length, length_app.
  cbn. repeat split; try lia.
  - exists (opening (next_id w) ++ evs ++
            [EvLoadURL (next_id w) (Remote APP_URL);
             EvOnClosed (next_id w) ClearMainWindow])%list.
    rewrite <- !app_assoc. reflexivity.
  - intros b Hb Hlt. do 3 (apply update_window_keeps; [ | exact Hlt ]).
    apply in_or_app. left. exact Hb.
Qed.

Lemma bootstrapApp_grows env fuel :
  forall w, grows w (snd (bootstrapApp env fuel w)).
Proof.
  induction fuel as [ | fuel IH]; intros w; [ apply grows_refl | ].
  destruct (startStack_answer env (startStack_calls w)) as [s | e] eqn:Hs.
  - destruct s.
    + rewrite bootstrapApp_missing by exact Hs. cbn [snd].
      eapply grows_trans; [ apply grows_probing | ].
      eapply grows_trans; [ | apply grows_quitted ].
      apply grows_record;
        destruct (showMessageBox_response env (showMessageBox_calls w) =? 0);
        reflexivity.
    + unfold bootstrapApp. rewrite bootstrapAppWith_S, Hs.
      destruct (showMessageBox_response env (showMessageBox_calls w) =? 0).
      * eapply grows_trans; [ apply grows_probing | ].
        eapply grows_trans; [ | apply IH ].
        apply grows_record; reflexivity.
      * cbn [snd]. eapply grows_trans; [ apply grows_probing | ].
        eapply grows_trans; [ | apply grows_quitted ].
        apply grows_record; reflexivity.
    + unfold bootstrapApp. rewrite bootstrapAppWith_S, Hs. cbn [snd].
      eapply grows_trans; [ apply grows_probing | ].
      eapply grows_trans; [ | apply grows_quitted ].
      apply grows_record; reflexivity.
    + unfold bootstrapApp. rewrite bootstrapAppWith_S, Hs.
      destruct (waitForHttpReady_answer env (waitForHttpReady_calls w))
        as [[ | ] | e]; cbn [snd].
      * apply grows_launched; reflexivity.
      * eapply grows_trans; [ apply grows_probing | ].
        eapply grows_trans; [ | apply grows_quitted ].
        eapply grows_trans; apply grows_record; reflexivity.
      * eapply grows_trans; [ apply grows_probing | ].
        apply grows_record; reflexivity.
  - unfold bootstrapApp. rewrite bootstrapAppWith_S, Hs. cbn [snd].
    apply grows_probing.
Qed.

(** Every run that gets fuel starts with the opening of a pass. *)
Lemma bootstrapApp_opening env fuel w :
  exists rest,
    trace (snd (bootstrapApp env (S fuel) w)) =
      (trace w ++ opening (next_id w) ++ rest)%list.
Proof.
  destruct (startStack_answer env (startStack_calls w)) as [s | e] eqn:Hs.
  - destruct s.
    + rewrite bootstrapApp_missing by exact Hs. cbn.
      eexists. rewrite <- !app_assoc. reflexivity.
    + unfold bootstrapApp. rewrite bootstrapAppWith_S, Hs.
      destruct (showMessageBox_response env (showMessageBox_calls w) =? 0).
      * destruct (bootstrapApp_grows env fuel
                    (record [EvMessageBox daemonOffDialog] (probing env w)))
          as ((rest & Ht) & _).
        unfold bootstrapApp in Ht. rewrite Ht. cbn.
        eexists. rewrite <- !app_assoc. reflexivity.
      * cbn. eexists. rewrite <- !app_assoc. reflexivity.
    + unfold bootstrapApp. rewrite bootstrapAppWith_S, Hs. cbn.
      eexists. rewrite <- !app_assoc. reflexivity.
    + unfold bootstrapApp. rewrite bootstrapAppWith_S, Hs.
      destruct (waitForHttpReady_answer env (waitForHttpReady_calls w))
        as [[ | ] | e]; cbn; eexists; rewrite <- !app_assoc; reflexivity.
  - unfold bootstrapApp. rewrite bootstrapAppWith_S, Hs. cbn.
    exists []. reflexivity.
Qed.

(** After a run, [mainWindow] refers to the window of its last pass. *)
Lemma bootstrapApp_mainWindow env fuel :
  forall w lo,
    lo <= next_id w ->
    (fuel = 0 -> exists k, mainWindow w = Some k /\ lo <= k) ->
    exists k, mainWindow (snd (bootstrapApp env fuel w)) = Some k /\ lo <= k.
Proof.
  induction fuel as [ | fuel IH]; intros w lo Hlo H0; [ apply H0; reflexivity | ].
  assert (Hhere : exists k, Some (next_id w) = Some k /\ lo <= k)
    by (exists (next_id w); split; [ reflexivity | exact Hlo ]).
  destruct (startStack_answer env (startStack_calls w)) as [s | e] eqn:Hs.
  - destruct s.
    + rewrite bootstrapApp_missing by exact Hs. exact Hhere.
    + unfold bootstrapApp. rewrite bootstrapAppWith_S, Hs.
      destruct (showMessageBox_response env (showMessageBox_calls w) =? 0);
        [ | exact Hhere ].
      apply IH; [ cbn; lia | intros _; exact Hhere ].
    + unfold bootstrapApp. rewrite bootstrapAppWith_S, Hs. exact Hhere.
    + unfold bootstrapApp. rewrite bootstrapAppWith_S, Hs.
      destruct (waitForHttpReady_answer env (waitForHttpReady_calls w))
        as [[ | ] | e]; exact Hhere.
  - unfold bootstrapApp. rewrite bootstrapAppWith_S, Hs. exact Hhere.
Qed.

(** While a pass probes, its window is open, new, and shows the
    starting page. *)
Lemma probing_has_starting_window env w :
  In {| win_id := next_id w; win_options := mainWindowOptions env;
        win_content := Some StartingPage; win_closed := [] |}
     (windows (probing env w)).
Proof.
  cbn. apply (update_window_hits (next_id w) (set_content StartingPage) _
                {| win_id := next_id w; win_options := mainWindowOptions env;
                   win_content := None; win_closed := [] |});
    [ | reflexivity ].
  apply in_or_app. right. left. reflexivity.
Qed.

(** C2, as the program has it.  In the run where Docker is stopped at
    first and the user presses "Retry", two windows end up open: window 1
    of the first pass, still showing the starting page, and window 2 of
    the retry, which is the one [mainWindow] refers to and which shows the
    application.  The retry did not reuse window 1. *)
Lemma retry_opens_second_window :
  let w' := snd (bootstrapApp env_retry_once 2 initial_world) in
  startStack_answer env_retry_once (startStack_calls initial_world) =
    Returns docker_daemon_off /\
  showMessageBox_response env_retry_once (showMessageBox_calls initial_world) = 0 /\
  fst (bootstrapApp env_retry_once 2 initial_world) = Resolved tt /\
  filter is_newWindow (trace w') = [EvNewWindow 1; EvNewWindow 2] /\
  map (fun b => (win_id b, win_content b)) (windows w') =
    [(1, Some StartingPage); (2, Some (Remote APP_URL))] /\
  mainWindow w' = Some 2 /\
  windows_created w' <> 1.
Proof.
  vm_compute. repeat split. discriminate.
Qed.

(** C2, amended.  When the status is [docker_daemon_off] and the user
    presses "Retry", the pass is started again from scratch, and that
    includes creating a window: the retry creates a new window with the
    next id, shows the starting page in it and probes again.  The window
    of the earlier pass is not reused: it stays open, still showing the
    starting page and without a close listener, while [mainWindow] moves
    on to a newer window. *)
Theorem retry_restarts_pass_in_new_window :
  forall (env : Env) (fuel : nat) (w : World),
    startStack_answer env (startStack_calls w) = Returns docker_daemon_off ->
    showMessageBox_response env (showMessageBox_calls w) = 0 ->
    let id := next_id w in
    let w' := snd (bootstrapApp env (S (S fuel)) w) in
    (exists rest,
        trace w' =
          (trace w ++
           [EvNewWindow id; EvLoadURL id StartingPage; EvStartStack;
            EvMessageBox daemonOffDialog;
            EvNewWindow (S id); EvLoadURL (S id) StartingPage; EvStartStack] ++
           rest)%list) /\
    (exists b, In b (windows w') /\ win_id b = id /\
               win_content b = Some StartingPage /\ win_closed b = []) /\
    (exists k, mainWindow w' = Some k /\ id < k) /\
    length (windows w) + 2 <= length (windows w').
Proof.
  intros env fuel w Hs Hr id w'. subst w'.
  rewrite bootstrapApp_retry by (split; assumption).
  set (w1 := record [EvMessageBox daemonOffDialog] (probing env w)).
  destruct (bootstrapApp_opening env fuel w1) as (rest & Ht).
  destruct (bootstrapApp_grows env (S fuel) w1) as (_ & _ & Hframe & _ & Hlen).
  destruct (bootstrapApp_mainWindow env (S fuel) w1 (S id)) as (k & Hk & Hle);
    [ subst w1; cbn; lia | discriminate | ].
  assert (Hw1 : length (windows w1) = S (length (windows w))).
  { subst w1. cbn. rewrite update_window_length, length_app. cbn. lia. }
  remember (snd (bootstrapApp env (S fuel) w1)) as w' eqn:Hw'.
  split; [ | split; [ | split ] ].
  - exists rest. rewrite Ht. subst w1. cbn. rewrite <- !app_assoc. reflexivity.
  - exists {| win_id := next_id w; win_options := mainWindowOptions env;
              win_content := Some StartingPage; win_closed := [] |}.
    split; [ | repeat split ].
    apply Hframe; [ apply probing_has_starting_window | cbn; lia ].
  - exists k. split; [ exact Hk | lia ].
  - unfold windows_created in Hlen. rewrite Ht in Hlen.
    rewrite !count_app in Hlen. unfold opening in Hlen.
    rewrite !count_cons in Hlen. cbn [is_newWindow] in Hlen.
    lia.
Qed.

Lemma retry_restarts_pass_in_new_window_witness :
  let w' := snd (bootstrapApp env_retry_once 2 initial_world) in
  (exists rest,
      trace w' =
        ([] ++
         [EvNewWindow 1; EvLoadURL 1 StartingPage; EvStartStack;
          EvMessageBox daemonOffDialog;
          EvNewWindow 2; EvLoadURL 2 StartingPage; EvStartStack] ++
         rest)%list) /\
  (exists b, In b (windows w') /\ win_id b = 1 /\
             win_content b = Some StartingPage /\ win_closed b = []) /\
  (exists k, mainWindow w' = Some k /\ 1 < k) /\
  0 + 2 <= length (windows w').
Proof.
  apply (retry_restarts_pass_in_new_window env_retry_once 0 initial_world);
    reflexivity.
Defined.

(* ------------------------------------------------------------------ *)
(** ** The two triggers *)

Lemma on_ready_run env fuel w :
  on_ready env fuel w =
    match bootstrapApp env fuel w with
    | (Rejected err, w1) =>
        (Resolved tt,
         quitted (record [EvConsoleError "Bootstrap error:" err;
                          EvErrorBox unexpectedTitle unexpectedText] w1))
    | settled => settled
    end.
Proof.
  unfold on_ready, catch.
  destruct (bootstrapApp env fuel w) as [[a | err | ] w1]; try reflexivity.
  settle. reflexivity.
Qed.

Lemma on_activate_no_window env fuel w :
  windows w = [] -> on_activate env fuel w = on_ready env fuel w.
Proof.
  intros Hw. unfold on_activate, bind, getAllWindows. rewrite Hw. reflexivity.
Qed.

Lemma on_activate_some_window env fuel w :
  windows w <> [] -> on_activate env fuel w = (Resolved tt, w).
Proof.
  intros Hw. unfold on_activate, bind, getAllWindows.
  destruct (windows w); [ contradiction | reflexivity ].
Qed.

(** C8. Whenever [bootstrapApp] rejects — and it does so with the very
    error whenever [startStack] or [waitForHttpReady] throws, in the first
    pass or after any number of retries — the [.catch] handler of the
    trigger takes over: the error is passed to [console.error], the error
    box with the fixed title "Unexpected error" and the fixed text is
    shown, and [app.quit()] is called.  The error appears in the console
    call only; the box is the same for every error. *)
Theorem unexpected_error_is_caught :
  forall (env : Env) (fuel : nat) (w : World),
    (forall err w1,
        bootstrapApp env fuel w = (Rejected err, w1) ->
        exists w2,
          on_ready env fuel w = (Resolved tt, w2) /\
          (windows w = [] -> on_activate env fuel w = (Resolved tt, w2)) /\
          quitting w2 = true /\
          trace w2 =
            (trace w1 ++
             [EvConsoleError "Bootstrap error:" err;
              EvErrorBox "Unexpected error"
                "Something went wrong while starting the Docker stack.";
              EvQuit])%list /\
          windows w2 = windows w1) /\
    (forall N err,
        (forall k, k < N ->
           startStack_answer env (startStack_calls w + k) = Returns docker_daemon_off /\
           showMessageBox_response env (showMessageBox_calls w + k) = 0) ->
        (startStack_answer env (startStack_calls w + N) = Throws err \/
         (startStack_answer env (startStack_calls w + N) = Returns ready /\
          waitForHttpReady_answer env (waitForHttpReady_calls w) = Throws err)) ->
        N < fuel ->
        exists w1, bootstrapApp env fuel w = (Rejected err, w1)).
Proof.
  intros env fuel w. split.
  - intros err w1 Hrej.
    assert (Hready : on_ready env fuel w =
                     (Resolved tt,
                      quitted (record [EvConsoleError "Bootstrap error:" err;
                                       EvErrorBox unexpectedTitle unexpectedText] w1)))
      by (rewrite on_ready_run, Hrej; reflexivity).
    eexists. split; [ exact Hready | ].
    split; [ intros Hw; rewrite on_activate_no_window by exact Hw; exact Hready | ].
    split; [ reflexivity | ].
    split; [ settle; reflexivity | reflexivity ].
  - intros N err Hretries Hthrow Hfuel.
    replace fuel with (N + S (fuel - S N)) by lia.
    destruct (bootstrapApp_retries env N (S (fuel - S N)) w Hretries)
      as (wn & Hrun & Hs & _ & Hw & _).
    rewrite Hrun. unfold bootstrapApp. rewrite bootstrapAppWith_S, Hs, Hw.
    destruct Hthrow as [Ht | [Ht Hp]]; rewrite Ht; [ | rewrite Hp ];
      eexists; reflexivity.
Qed.

Lemma unexpected_error_is_caught_witness :
  exists w1 w2,
    bootstrapApp (env_const (Throws (Error "spawn docker EACCES")) (Returns true) 0)
      1 initial_world = (Rejected (Error "spawn docker EACCES"), w1) /\
    on_ready (env_const (Throws (Error "spawn docker EACCES")) (Returns true) 0)
      1 initial_world = (Resolved tt, w2) /\
    quitting w2 = true /\
    trace w2 =
      (trace w1 ++
       [EvConsoleError "Bootstrap error:" (Error "spawn docker EACCES");
        EvErrorBox "Unexpected error"
          "Something went wrong while starting the Docker stack.";
        EvQuit])%list.
Proof.
  destruct (unexpected_error_is_caught
              (env_const (Throws (Error "spawn docker EACCES")) (Returns true) 0)
              1 initial_world) as [Hcatch Hthrow].
  destruct (Hthrow 0 (Error "spawn docker EACCES")) as [w1 H1].
  - intros k Hk. lia.
  - left. reflexivity.
  - lia.
  - destruct (Hcatch _ _ H1) as (w2 & H2 & _ & Hq & Ht & _).
    exists w1, w2. repeat split; assumption.
Defined.

(** A reactivation during which the user retries.  The application was
    launched and its window closed, so no window is open.  The activate
    trigger fires, Docker is found stopped, the user presses "Retry" and
    the stack then starts: the pass started by the trigger has created
    window 2, and the pass started by the retry window 3. *)
Lemma activate_then_retry_opens_two_windows :
  let r := on_activate env_stopped_on_reopen 2 world_after_close in
  windows world_after_close = [] /\
  mainWindow world_after_close = None /\
  fst r = Resolved tt /\
  map win_id (windows (snd r)) = [2; 3] /\
  windows_created (snd r) - windows_created world_after_close = 2 /\
  startStack_calls (snd r) - startStack_calls world_after_close = 2 /\
  length (windows (snd r)) <> 1.
Proof.
  vm_compute. repeat split. discriminate.
Qed.

(** Over a whole run of the activate trigger, retries included, one
    window is created per pass. *)
Lemma activate_opens_one_window_per_pass :
  forall (env : Env) (fuel : nat) (w : World),
    windows w = [] ->
    let w' := snd (on_activate env fuel w) in
    length (windows w') = windows_created w' - windows_created w /\
    length (windows w') = startStack_calls w' - startStack_calls w.
Proof.
  intros env fuel w Hw w'. subst w'. rewrite on_activate_no_window by exact Hw.
  rewrite on_ready_run.
  destruct (bootstrapApp_grows env fuel w) as (_ & _ & _ & Hc & Hl).
  rewrite Hw in Hl. cbn [length] in Hl.
  destruct (bootstrapApp env fuel w) as [[a | err | ] w1]; cbn [snd] in *;
    try (split; lia).
  unfold windows_created, startStack_calls in *. cbn.
  rewrite !count_app, !count_cons, !count_nil. cbn.
  split; lia.
Qed.

Lemma retried_dec env w : retried env w \/ ~ retried env w.
Proof.
  unfold retried.
  destruct (startStack_answer env (startStack_calls w)) as [[ | | | ] | e];
    try (right; intros [H _]; discriminate H).
  destruct (Nat.eq_dec (showMessageBox_response env (showMessageBox_calls w)) 0)
    as [E | N].
  - left. split; [ reflexivity | exact E ].
  - right. intros [_ H]. contradiction.
Qed.

(** The pass the activate trigger starts, with no window open: one
    window, one [startStack] call, whatever the pass then does. *)
Lemma activate_pass env w :
  windows w = [] ->
  let w' := snd (on_activate env 1 w) in
  length (windows w') = 1 /\
  windows_created w' = S (windows_created w) /\
  startStack_calls w' = S (startStack_calls w).
Proof.
  intros Hw w'. subst w'. rewrite on_activate_no_window by exact Hw.
  rewrite on_ready_run.
  destruct (retried_dec env w) as [Hre | Hno].
  - rewrite bootstrapApp_retry by exact Hre.
    change (bootstrapApp env 0 (record [EvMessageBox daemonOffDialog] (probing env w)))
      with (@Unsettled unit, record [EvMessageBox daemonOffDialog] (probing env w)).
    cbn [snd]. destruct (retry_calls env w) as (Es & _ & _ & Ec & _).
    split; [ | split; assumption ].
    unfold record, probing. cbn [windows].
    rewrite update_window_length, length_app, Hw. reflexivity.
  - destruct (pass_without_retry env 0 w Hno)
      as (out & w1 & Hrun & Hout & Hs & Hc & Hl).
    rewrite Hrun. rewrite Hw in Hl. cbn [length] in Hl.
    destruct out as [[] | err | ]; [ | | contradiction ]; cbn [snd].
    + repeat split; assumption.
    + unfold windows_created, startStack_calls in *. cbn.
      rewrite !count_app, !count_cons, !count_nil. cbn.
      repeat split; lia.
Qed.

(** C9. The activate trigger runs the orchestrator only when no window
    is open: with a window open it does nothing.  With none open it
    makes a single call of [bootstrapApp] (under the same [.catch]
    handler as the ready trigger), and the pass this starts creates
    exactly one new window and calls [startStack] exactly once, whatever
    the docker manager and the user answer.  Anything beyond that pass
    is the doing of a "Retry": a pass that is not retried is the whole
    run. *)
Theorem activate_starts_one_pass_in_one_window :
  forall (env : Env) (w : World),
    (windows w <> [] ->
     forall fuel, on_activate env fuel w = (Resolved tt, w)) /\
    (windows w = [] ->
     (forall fuel,
         on_activate env fuel w =
         catch (bootstrapApp env fuel) onBootstrapError w) /\
     length (windows (snd (on_activate env 1 w))) = 1 /\
     windows_created (snd (on_activate env 1 w)) = S (windows_created w) /\
     startStack_calls (snd (on_activate env 1 w)) = S (startStack_calls w) /\
     (exists rest,
         trace (snd (on_activate env 1 w)) =
           (trace w ++
            [EvNewWindow (next_id w); EvLoadURL (next_id w) StartingPage;
             EvStartStack] ++ rest)%list) /\
     (forall fuel,
         ~ (startStack_answer env (startStack_calls w) = Returns docker_daemon_off /\
            showMessageBox_response env (showMessageBox_calls w) = 0) ->
         on_activate env (S fuel) w = on_activate env 1 w)).
Proof.
  intros env w. split.
  - intros Hw fuel. apply on_activate_some_window. exact Hw.
  - intros Hw.
    destruct (activate_pass env w Hw) as (Hl & Hc & Hs).
    split; [ intros fuel; apply on_activate_no_window; exact Hw | ].
    split; [ exact Hl | ]. split; [ exact Hc | ]. split; [ exact Hs | ].
    split.
    + rewrite on_activate_no_window by exact Hw. rewrite on_ready_run.
      destruct (bootstrapApp_opening env 0 w) as (rest & Ht).
      destruct (bootstrapApp env 1 w) as [[a | err | ] w1]; cbn [snd] in *;
        try (exists rest; exact Ht).
      eexists. cbn. rewrite Ht, <- !app_assoc. reflexivity.
    + intros fuel Hno.
      rewrite !on_activate_no_window by exact Hw. rewrite !on_ready_run.
      rewrite pass_then_rest.
      destruct (pass_without_retry env 0 w Hno) as (out & w1 & Hrun & Hout & _).
      rewrite Hrun. destruct out as [a | err | ]; [ | | contradiction ];
        reflexivity.
Qed.

Lemma activate_starts_one_pass_in_one_window_witness :
  length (windows (snd (on_activate env_retry_once 1 initial_world))) = 1 /\
  windows_created (snd (on_activate env_retry_once 1 initial_world)) = 1 /\
  startStack_calls (snd (on_activate env_retry_once 1 initial_world)) = 1.
Proof.
  destruct (proj2 (activate_starts_one_pass_in_one_window env_retry_once initial_world)
              eq_refl) as (_ & Hl & Hc & Hs & _).
  repeat split; assumption.
Defined.

(* ------------------------------------------------------------------ *)
(** ** How every run ends *)

Ltac tally :=
  unfold quit_calls, app_loads, error_boxes, waitForHttpReady_calls; settle.

(** A retried pass has not quit, loaded the application, probed the
    server or shown an error box. *)
Lemma retry_keeps env w :
  let w1 := record [EvMessageBox daemonOffDialog] (probing env w) in
  quit_calls w1 = quit_calls w /\
  app_loads w1 = app_loads w /\
  error_boxes w1 = error_boxes w /\
  quitting w1 = quitting w.
Proof. repeat split; tally; lia. Qed.

(** What a run has done when it stops, whatever the number of passes. *)
Lemma bootstrapApp_ends env fuel :
  forall w,
    let w' := snd (bootstrapApp env fuel w) in
    waitForHttpReady_calls w' <= S (waitForHttpReady_calls w) /\
    match fst (bootstrapApp env fuel w) with
    | Resolved _ =>
        (quit_calls w' = S (quit_calls w) /\ app_loads w' = app_loads w /\
         quitting w' = true /\ error_boxes w' <= S (error_boxes w)) \/
        (quit_calls w' = quit_calls w /\ app_loads w' = S (app_loads w) /\
         quitting w' = quitting w /\ error_boxes w' = error_boxes w /\
         waitForHttpReady_calls w' = S (waitForHttpReady_calls w))
    | Rejected _ | Unsettled =>
        quit_calls w' = quit_calls w /\ app_loads w' = app_loads w /\
        quitting w' = quitting w /\ error_boxes w' = error_boxes w
    end.
Proof.
  induction fuel as [ | fuel IH]; intros w.
  - cbn. repeat split; lia.
  - destruct (startStack_answer env (startStack_calls w)) as [s | e] eqn:Hs.
    + destruct s.
      * rewrite bootstrapApp_missing by exact Hs. cbn [fst snd].
        destruct (showMessageBox_response env (showMessageBox_calls w) =? 0);
          (split; [ tally; lia | left; repeat split; tally; lia ]).
      * unfold bootstrapApp. rewrite bootstrapAppWith_S, Hs.
        destruct (showMessageBox_response env (showMessageBox_calls w) =? 0).
        -- specialize (IH (record [EvMessageBox daemonOffDialog] (probing env w))).
           destruct (retry_keeps env w) as (Eq & El & Ee & Eg).
           destruct (retry_calls env w) as (_ & _ & Ew & _).
           unfold bootstrapApp in IH. cbn zeta in *.
           rewrite Eq, El, Ee, Eg, Ew in IH. exact IH.
        -- cbn [fst snd].
           split; [ tally; lia | left; repeat split; tally; lia ].
      * unfold bootstrapApp. rewrite bootstrapAppWith_S, Hs. cbn [fst snd].
        split; [ tally; lia | left; repeat split; tally; lia ].
      * unfold bootstrapApp. rewrite bootstrapAppWith_S, Hs.
        destruct (waitForHttpReady_answer env (waitForHttpReady_calls w))
          as [[ | ] | e]; cbn [fst snd].
        -- split; [ tally; lia | right; repeat split; tally; lia ].
        -- split; [ tally; lia | left; repeat split; tally; lia ].
        -- split; [ tally; lia | repeat split; tally; lia ].
    + unfold bootstrapApp. rewrite bootstrapAppWith_S, Hs. cbn [fst snd].
      split; [ tally; lia | repeat split; tally; lia ].
Qed.

(** X1. The ready trigger never lets a rejection escape, and a run of
    it that settles has done exactly one of two things, whatever the
    number of retried passes before: it has called [app.quit()] once and
    not loaded the application (showing at most one error box), or it has
    loaded the application once, without quitting and without any error
    box.  A run that is still waiting has done neither. *)
Theorem ready_trigger_quits_or_launches :
  forall (env : Env) (fuel : nat) (w : World),
    let w' := snd (on_ready env fuel w) in
    match fst (on_ready env fuel w) with
    | Resolved _ =>
        (quit_calls w' = S (quit_calls w) /\ app_loads w' = app_loads w /\
         quitting w' = true /\ error_boxes w' <= S (error_boxes w)) \/
        (quit_calls w' = quit_calls w /\ app_loads w' = S (app_loads w) /\
         quitting w' = quitting w /\ error_boxes w' = error_boxes w)
    | Rejected _ => False
    | Unsettled =>
        quit_calls w' = quit_calls w /\ app_loads w' = app_loads w /\
        quitting w' = quitting w
    end.
Proof.
  intros env fuel w. cbn zeta. rewrite on_ready_run.
  destruct (bootstrapApp_ends env fuel w) as [_ H].
  destruct (bootstrapApp env fuel w) as [[a | err | ] w1]; cbn [fst snd] in *.
  - destruct H as [(Hq & Hl & Hg & He) | (Hq & Hl & Hg & He & _)];
      [ left | right ]; repeat split; assumption.
  - destruct H as (Hq & Hl & Hg & He).
    left. repeat split; tally;
      unfold quit_calls, app_loads, error_boxes in *; lia.
  - destruct H as (Hq & Hl & Hg & _). repeat split; assumption.
Qed.

(** X2. However often the user retries, a run of [bootstrapApp] calls
    [waitForHttpReady] at most once, and it loads the application only if
    it made that call. *)
Theorem run_probes_once_and_loads_after_probe :
  forall (env : Env) (fuel : nat) (w : World),
    let w' := snd (bootstrapApp env fuel w) in
    waitForHttpReady_calls w' <= S (waitForHttpReady_calls w) /\
    app_loads w <= app_loads w' /\
    app_loads w' - app_loads w <= waitForHttpReady_calls w' - waitForHttpReady_calls w.
Proof.
  intros env fuel w. cbn zeta.
  destruct (bootstrapApp_ends env fuel w) as [Hw H].
  destruct (fst (bootstrapApp env fuel w)) as [a | err | ].
  - destruct H as [(_ & Hl & _) | (_ & Hl & _ & _ & Hp)]; lia.
  - destruct H as (_ & Hl & _). lia.
  - destruct H as (_ & Hl & _). lia.
Qed.

(* ------------------------------------------------------------------ *)
(** ** Closing windows and coming back *)

Lemma bootstrapApp_launch env fuel w :
  startStack_answer env (startStack_calls w) = Returns ready ->
  waitForHttpReady_answer env (waitForHttpReady_calls w) = Returns true ->
  bootstrapApp env (S fuel) w =
    (Resolved tt,
     launched (next_id w) (record [EvWaitForHttpReady APP_URL] (probing env w))).
Proof.
  intros Hs Hr. unfold bootstrapApp. rewrite bootstrapAppWith_S, Hs, Hr.
  reflexivity.
Qed.

Lemma eqb_succ_r n : (n =? S n) = false.
Proof. apply Nat.eqb_neq. lia. Qed.

Lemma eqb_succ_l n : (S n =? n) = false.
Proof. apply Nat.eqb_neq. lia. Qed.

(** With no window open before, a probing pass has exactly its own. *)
Lemma probing_sole_window env w :
  windows w = [] ->
  windows (probing env w) =
    [{| win_id := next_id w; win_options := mainWindowOptions env;
        win_content := Some StartingPage; win_closed := [] |}].
Proof.
  intros Hw. unfold probing, update_window. cbn [windows]. rewrite Hw. cbn.
  rewrite Nat.eqb_refl. reflexivity.
Qed.

Lemma on_ready_opening env fuel w :
  exists rest,
    trace (snd (on_ready env (S fuel) w)) =
      (trace w ++ opening (next_id w) ++ rest)%list.
Proof.
  rewrite on_ready_run.
  destruct (bootstrapApp_opening env fuel w) as (rest & Ht).
  destruct (bootstrapApp env (S fuel) w) as [[a | err | ] w1]; cbn [snd] in *;
    try (exists rest; exact Ht).
  eexists. cbn. rewrite Ht, <- !app_assoc. reflexivity.
Qed.

(** X3. Launch, close, reopen.  From a state without windows in which
    the stack starts and the server answers, the ready trigger opens one
    window; once the user closes it no window is left and [mainWindow] is
    [null]; the window-all-closed trigger then quits, except on darwin,
    where the process stays; and on darwin the activate trigger starts a
    fresh pass in a new window. *)
Theorem launch_close_reopen :
  forall (env : Env) (fuel fuel' : nat) (w : World),
    windows w = [] ->
    quitting w = false ->
    startStack_answer env (startStack_calls w) = Returns ready ->
    waitForHttpReady_answer env (waitForHttpReady_calls w) = Returns true ->
    let id := next_id w in
    let w1 := snd (on_ready env (S fuel) w) in
    let w2 := close_window id w1 in
    let w3 := snd (on_window_all_closed env w2) in
    map win_id (windows w1) = [id] /\
    windows w2 = [] /\
    mainWindow w2 = None /\
    quitting w3 = negb (String.eqb (platform env) "darwin") /\
    (platform env = "darwin" ->
     w3 = w2 /\
     on_activate env (S fuel') w3 = on_ready env (S fuel') w3 /\
     exists rest,
       trace (snd (on_activate env (S fuel') w3)) =
         (trace w3 ++
          [EvNewWindow (S id); EvLoadURL (S id) StartingPage; EvStartStack] ++
          rest)%list).
Proof.
  intros env fuel fuel' w Hw Hq Hs Hr id w1 w2 w3.
  assert (E1 : w1 = launched id (record [EvWaitForHttpReady APP_URL] (probing env w))).
  { subst w1. rewrite on_ready_run, bootstrapApp_launch by assumption. reflexivity. }
  assert (Hwin : windows w1 =
                 [{| win_id := id; win_options := mainWindowOptions env;
                     win_content := Some (Remote APP_URL);
                     win_closed := [ClearMainWindow] |}]).
  { rewrite E1. unfold launched, record. cbn [windows].
    rewrite probing_sole_window by exact Hw. unfold update_window. cbn.
    subst id. rewrite Nat.eqb_refl. cbn. rewrite Nat.eqb_refl. reflexivity. }
  assert (E2 : w2 = {| mainWindow := None; windows := []; next_id := S id;
                       quitting := false; trace := trace w1 |}).
  { subst w2. unfold close_window. rewrite Hwin. cbn. rewrite Nat.eqb_refl. cbn.
    rewrite E1. cbn. rewrite Hq. reflexivity. }
  split; [ rewrite Hwin; reflexivity | ].
  split; [ rewrite E2; reflexivity | ].
  split; [ rewrite E2; reflexivity | ].
  split.
  - subst w3. unfold on_window_all_closed.
    destruct (String.eqb (platform env) "darwin"); rewrite E2; reflexivity.
  - intros Hp.
    assert (E3 : w3 = w2).
    { subst w3. unfold on_window_all_closed. rewrite Hp. reflexivity. }
    split; [ exact E3 | ].
    assert (Hnone : windows w3 = []) by (rewrite E3, E2; reflexivity).
    split; [ apply on_activate_no_window; exact Hnone | ].
    rewrite on_activate_no_window by exact Hnone.
    destruct (on_ready_opening env fuel' w3) as (rest & Ht).
    exists rest. rewrite Ht. rewrite E3 at 2. rewrite E2. reflexivity.
Qed.

Lemma launch_close_reopen_witness :
  let env := env_stopped_on_reopen in
  let w1 := snd (on_ready env 1 initial_world) in
  let w2 := close_window 1 w1 in
  let w3 := snd (on_window_all_closed env w2) in
  map win_id (windows w1) = [1] /\
  windows w2 = [] /\
  mainWindow w2 = None /\
  quitting w3 = false /\
  (platform env = "darwin" ->
   w3 = w2 /\
   on_activate env 2 w3 = on_ready env 2 w3 /\
   exists rest,
     trace (snd (on_activate env 2 w3)) =
       (trace w3 ++
        [EvNewWindow 2; EvLoadURL 2 StartingPage; EvStartStack] ++ rest)%list).
Proof.
  apply (launch_close_reopen env_stopped_on_reopen 0 1 initial_world);
    reflexivity.
Defined.

(** X4. The window a retried pass leaves behind blocks reopening.  From
    a state without windows, if Docker is stopped at first, the user
    presses "Retry", and the stack then starts and answers, the run ends
    with two windows.  When the user closes the application window,
    [mainWindow] becomes [null] but the window of the first pass is still
    open on the starting page, so the activate trigger does nothing. *)
Theorem stale_window_blocks_reopen :
  forall (env : Env) (fuel fuel' : nat) (w : World),
    windows w = [] ->
    startStack_answer env (startStack_calls w) = Returns docker_daemon_off ->
    showMessageBox_response env (showMessageBox_calls w) = 0 ->
    startStack_answer env (S (startStack_calls w)) = Returns ready ->
    waitForHttpReady_answer env (waitForHttpReady_calls w) = Returns true ->
    let id := next_id w in
    let w1 := snd (on_ready env (S (S fuel)) w) in
    let w2 := close_window (S id) w1 in
    fst (on_ready env (S (S fuel)) w) = Resolved tt /\
    quitting w1 = quitting w /\
    map (fun b => (win_id b, win_content b)) (windows w1) =
      [(id, Some StartingPage); (S id, Some (Remote "http://localhost:8080"))] /\
    mainWindow w1 = Some (S id) /\
    mainWindow w2 = None /\
    map (fun b => (win_id b, win_content b)) (windows w2) =
      [(id, Some StartingPage)] /\
    on_activate env fuel' w2 = (Resolved tt, w2).
Proof.
  intros env fuel fuel' w Hw Hs Hr Hs2 Hp id w1 w2.
  set (wr := record [EvMessageBox daemonOffDialog] (probing env w)).
  destruct (retry_calls env w) as (Es & _ & Ew & _). fold wr in Es, Ew.
  assert (En : next_id wr = S id) by reflexivity.
  assert (Hrun : on_ready env (S (S fuel)) w =
                 (Resolved tt,
                  launched (S id) (record [EvWaitForHttpReady APP_URL] (probing env wr)))).
  { rewrite on_ready_run, bootstrapApp_retry by (split; assumption). fold wr.
    rewrite bootstrapApp_launch by (rewrite ?Es, ?Ew; assumption).
    reflexivity. }
  assert (Hwin : windows w1 =
                 [{| win_id := id; win_options := mainWindowOptions env;
                     win_content := Some StartingPage; win_closed := [] |};
                  {| win_id := S id; win_options := mainWindowOptions env;
                     win_content := Some (Remote APP_URL);
                     win_closed := [ClearMainWindow] |}]).
  { subst w1. rewrite Hrun. cbn [snd].
    unfold launched, record, probing, wr, update_window. cbn. rewrite Hw. cbn.
    repeat (rewrite ?eqb_succ_r, ?Nat.eqb_refl; cbn). reflexivity. }
  split; [ rewrite Hrun; reflexivity | ].
  split; [ subst w1; rewrite Hrun; reflexivity | ].
  split; [ rewrite Hwin; reflexivity | ].
  split; [ subst w1; rewrite Hrun; reflexivity | ].
  assert (Hclose : mainWindow w2 = None /\
                   windows w2 =
                     [{| win_id := id; win_options := mainWindowOptions env;
                         win_content := Some StartingPage; win_closed := [] |}]).
  { subst w2. unfold close_window. rewrite Hwin. cbn.
    rewrite eqb_succ_r, Nat.eqb_refl. cbn. split; reflexivity. }
  destruct Hclose as [Hm Hws].
  split; [ exact Hm | ].
  split; [ rewrite Hws; reflexivity | ].
  apply on_activate_some_window. rewrite Hws. discriminate.
Qed.

Lemma stale_window_blocks_reopen_witness :
  let env := env_retry_once in
  let w1 := snd (on_ready env 2 initial_world) in
  let w2 := close_window 2 w1 in
  fst (on_ready env 2 initial_world) = Resolved tt /\
  quitting w1 = false /\
  map (fun b => (win_id b, win_content b)) (windows w1) =
    [(1, Some StartingPage); (2, Some (Remote "http://localhost:8080"))] /\
  mainWindow w1 = Some 2 /\
  mainWindow w2 = None /\
  map (fun b => (win_id b, win_content b)) (windows w2) =
    [(1, Some StartingPage)] /\
  on_activate env 5 w2 = (Resolved tt, w2).
Proof.
  apply (stale_window_blocks_reopen env_retry_once 0 5 initial_world);
    reflexivity.
Defined.

(* ------------------------------------------------------------------ *)
(** ** [downloadFile] *)

Lemma nth_error_last {A} (l : list A) (x : A) :
  nth_error (l ++ [x]) (length l) = Some x.
Proof.
  rewrite nth_error_app2 by lia. rewrite Nat.sub_diag. reflexivity.
Qed.

Lemma close_at_last (l : list WriteStream) (s : WriteStream) :
  close_at (length l) (l ++ [s]) =
    (l ++ [{| ws_path := ws_path s; ws_closed := true |}])%list.
Proof.
  induction l as [ | a l IH]; [ reflexivity | ].
  cbn. rewrite IH. reflexivity.
Qed.

Lemma requested_app (l l' : list HostEvent) :
  requested (l ++ l') = (requested l ++ requested l')%list.
Proof.
  induction l as [ | e l IH]; [ reflexivity | ].
  destruct e; cbn; rewrite IH; reflexivity.
Qed.

Lemma read_file_other q p c h h' :
  files h' = (p, c) :: files h -> q <> p -> read_file q h' = read_file q h.
Proof.
  intros Hf Hq. unfold read_file. rewrite Hf. cbn.
  destruct (String.eqb_spec p q) as [E | _]; [ congruence | reflexivity ].
Qed.

Lemma read_file_same p c fs h' :
  files h' = (p, c) :: fs -> read_file p h' = Some c.
Proof.
  intros Hf. unfold read_file. rewrite Hf. cbn.
  rewrite String.eqb_refl. reflexivity.
Qed.

Lemma read_file_files q h h' :
  files h' = files h -> read_file q h' = read_file q h.
Proof. intros Hf. unfold read_file. rewrite Hf. reflexivity. Qed.

Lemma last_cons {A} (a d : A) (l : list A) : last (a :: l) d = last l a.
Proof.
  revert a d. induction l as [ | b l IH]; intros a d; [ reflexivity | ].
  change (last (a :: b :: l) d) with (last (b :: l) d).
  rewrite (IH b d), (IH b a). reflexivity.
Qed.

Lemma requesting_calls henv url p h :
  get_calls (requesting henv url p h) = S (get_calls h) /\
  requested (log (requesting henv url p h)) = (requested (log h) ++ [url])%list /\
  read_file p (requesting henv url p h) =
    (if can_open henv p then Some EmptyString else read_file p h) /\
  (forall q, q <> p -> read_file q (requesting henv url p h) = read_file q h).
Proof.
  unfold get_calls, requesting. cbn [log].
  rewrite filter_app, length_app, requested_app. cbn.
  split; [ lia | ]. split; [ reflexivity | ].
  destruct (can_open henv p); split.
  - eapply read_file_same; reflexivity.
  - intros q Hq. eapply read_file_other; [ reflexivity | exact Hq ].
  - apply read_file_files. reflexivity.
  - intros q _. apply read_file_files. reflexivity.
Qed.

(** One request of [downloadFile], case by case. *)
Lemma downloadFile_S henv fuel url p h :
  downloadFile henv (S fuel) url p h =
    match https_get_answer henv (get_calls h) url with
    | Responds res =>
        if is_redirect res then
          downloadFile henv fuel (string_value (location res)) p
            (requesting henv url p h)
        else if number_is_not (statusCode res) 200 then
          (Rejected (Error ("Download failed with status " ++
                            show_number (statusCode res))),
           requesting henv url p h)
        else if can_open henv p then
          (Resolved tt,
           saved (length (streams h)) p (body res) (requesting henv url p h))
        else
          (Unsettled, hlog (HvPipe (length (streams h))) (requesting henv url p h))
    | Fails err =>
        (Rejected err, given_up (length (streams h)) (requesting henv url p h))
    | Refuses err =>
        (Rejected err, requesting henv url p h)
    end.
Proof.
  cbn [downloadFile]. unfold hbind, createWriteStream, https_get, hlog, get_calls.
  cbn. rewrite filter_app. cbn. rewrite app_nil_r.
  unfold requesting, saved, given_up. rewrite <- !app_assoc. cbn.
  destruct (https_get_answer henv (length (filter is_get (log h))) url)
    as [res | err | err].
  - destruct (is_redirect res); [ reflexivity | ].
    destruct (number_is_not (statusCode res) 200); [ reflexivity | ].
    unfold pipe, close, hlog. cbn. rewrite nth_error_last. cbn.
    destruct (can_open henv p); cbn; rewrite <- !app_assoc; reflexivity.
  - unfold close, hthrow. cbn. rewrite <- !app_assoc. reflexivity.
  - reflexivity.
Qed.

(** Following a chain of redirects: one request and one stream per hop,
    none of the streams closed. *)
Lemma downloadFile_chain henv p hops :
  forall fuel url h,
    redirect_chain henv (get_calls h) url hops ->
    exists hn,
      downloadFile henv (length hops + fuel) url p h =
        downloadFile henv fuel (chain_end url hops) p hn /\
      get_calls hn = get_calls h + length hops /\
      streams hn = (streams h ++ left_open p (length hops))%list /\
      requested (log hn) = (requested (log h) ++ removelast (url :: hops))%list /\
      (forall q, q <> p -> read_file q hn = read_file q h) /\
      (can_open henv p = false -> read_file p hn = read_file p h).
Proof.
  induction hops as [ | next rest IH]; intros fuel url h Hchain.
  - exists h. cbn. rewrite !app_nil_r, Nat.add_0_r. repeat split; auto.
  - destruct Hchain as [(res & Hans & Hred & Hloc) Hrest].
    destruct (requesting_calls henv url p h) as (Ec & Er & Ep & Ef).
    destruct (IH fuel next (requesting henv url p h))
      as (hn & Hrun & Hc & Hs & Hr & Hf & Hp).
    { rewrite Ec. exact Hrest. }
    exists hn. split; [ | split; [ | split; [ | split; [ | split ] ] ] ].
    + cbn [length Nat.add]. rewrite downloadFile_S, Hans, Hred, Hloc. cbn [string_value].
      rewrite Hrun. unfold chain_end. rewrite last_cons. reflexivity.
    + rewrite Hc, Ec. cbn [length]. lia.
    + rewrite Hs. cbn. rewrite <- app_assoc. reflexivity.
    + rewrite Hr, Er, <- app_assoc. reflexivity.
    + intros q Hq. rewrite Hf by exact Hq. apply Ef. exact Hq.
    + intros Hno. rewrite Hp by exact Hno. rewrite Ep, Hno. reflexivity.
Qed.

Lemma chain_requests url hops :
  (removelast (url :: hops) ++ [chain_end url hops])%list = url :: hops.
Proof.
  unfold chain_end. rewrite <- (last_cons url url hops).
  symmetry. apply app_removelast_last. discriminate.
Qed.

Lemma number_is_not_200 (n : option nat) :
  number_is_not n 200 = false <-> n = Some 200.
Proof.
  destruct n as [c | ]; cbn [number_is_not].
  - destruct (Nat.eqb_spec c 200) as [E | N]; cbn; split; intros H;
      congruence.
  - split; discriminate.
Qed.

Lemma ok_is_no_redirect res : statusCode res = Some 200 -> is_redirect res = false.
Proof. intros H. unfold is_redirect. rewrite H. reflexivity. Qed.

Lemma left_open_snoc p n :
  (left_open p n ++ [{| ws_path := p; ws_closed := false |}])%list =
  left_open p (S n).
Proof.
  unfold left_open. replace (S n) with (n + 1) by lia.
  rewrite repeat_app. reflexivity.
Qed.

(** X5. [downloadFile] follows redirects of any length.  If the request
    for [url] is answered by a chain of redirects and the last address
    answers 200, the addresses are requested in the order of the chain,
    one stream on the target is created per request, and no other file
    is touched.  When the target can be opened for writing, the download
    resolves, the target file holds the body of the last answer, and
    only the last stream is closed: each redirect followed leaves a
    stream open.  When the target cannot be opened, the download never
    settles, no file appears, and no stream is closed. *)
Theorem download_follows_redirects :
  forall (henv : HostEnv) (hops : list string) (fuel : nat)
         (url p : string) (h : Host) (res : IncomingMessage),
    redirect_chain henv (get_calls h) url hops ->
    https_get_answer henv (get_calls h + length hops) (chain_end url hops) =
      Responds res ->
    statusCode res = Some 200 ->
    length hops < fuel ->
    exists h',
      downloadFile henv fuel url p h =
        (if can_open henv p then Resolved tt else Unsettled, h') /\
      read_file p h' =
        (if can_open henv p then Some (body res) else read_file p h) /\
      requested (log h') = (requested (log h) ++ url :: hops)%list /\
      streams h' =
        (streams h ++ left_open p (length hops) ++
         [{| ws_path := p; ws_closed := can_open henv p |}])%list /\
      (forall q, q <> p -> read_file q h' = read_file q h).
Proof.
  intros henv hops fuel url p h res Hchain Hans Hok Hfuel.
  replace fuel with (length hops + S (fuel - S (length hops))) by lia.
  destruct (downloadFile_chain henv p hops (S (fuel - S (length hops))) url h Hchain)
    as (hn & Hrun & Hc & Hs & Hr & Hf & Hp).
  rewrite Hrun, downloadFile_S, Hc, Hans, (ok_is_no_redirect res Hok).
  rewrite (proj2 (number_is_not_200 _) Hok).
  destruct (requesting_calls henv (chain_end url hops) p hn) as (_ & Er & Ep & Ef).
  destruct (can_open henv p) eqn:Hopen.
  - eexists. split; [ reflexivity | ].
    split; [ eapply read_file_same; reflexivity | ].
    split; [ | split ].
    + cbn [saved log]. rewrite requested_app, Er, Hr. cbn [requested].
      rewrite app_nil_r, <- app_assoc, chain_requests. reflexivity.
    + cbn [saved requesting streams]. rewrite close_at_last, Hs, <- app_assoc.
      reflexivity.
    + intros q Hq.
      rewrite (read_file_other q p (body res) (requesting henv (chain_end url hops) p hn))
        by (reflexivity || exact Hq).
      rewrite Ef by exact Hq. apply Hf. exact Hq.
  - eexists. split; [ reflexivity | ].
    split; [ | split; [ | split ] ].
    + rewrite <- (Hp eq_refl), <- Ep. apply read_file_files. reflexivity.
    + cbn [hlog log]. rewrite requested_app, Er, Hr. cbn [requested].
      rewrite app_nil_r, <- app_assoc, chain_requests. reflexivity.
    + cbn [hlog requesting streams]. rewrite Hs, <- app_assoc. reflexivity.
    + intros q Hq. rewrite <- (Hf q Hq), <- (Ef q Hq).
      apply read_file_files. reflexivity.
Qed.

Lemma download_follows_redirects_witness :
  exists h',
    downloadFile (host_env_of "darwin" mirror_server) 3
      "https://desktop.docker.com/mac/main/arm64/Docker.dmg" "/tmp/Docker.dmg"
      fresh_host = (Resolved tt, h') /\
    read_file "/tmp/Docker.dmg" h' = Some "dmg-bytes" /\
    requested (log h') =
      ["https://desktop.docker.com/mac/main/arm64/Docker.dmg";
       "https://cdn.docker.com/a/Docker.dmg";
       "https://cdn.docker.com/b/Docker.dmg"] /\
    streams h' =
      [{| ws_path := "/tmp/Docker.dmg"; ws_closed := false |};
       {| ws_path := "/tmp/Docker.dmg"; ws_closed := false |};
       {| ws_path := "/tmp/Docker.dmg"; ws_closed := true |}] /\
    (forall q, q <> "/tmp/Docker.dmg" -> read_file q h' = read_file q fresh_host).
Proof.
  apply (download_follows_redirects (host_env_of "darwin" mirror_server)
           ["https://cdn.docker.com/a/Docker.dmg"; "https://cdn.docker.com/b/Docker.dmg"]
           3 "https://desktop.docker.com/mac/main/arm64/Docker.dmg" "/tmp/Docker.dmg"
           fresh_host
           {| statusCode := Some 200; location := None; body := "dmg-bytes" |}).
  - cbn. split; [ eexists; repeat split | split; [ eexists; repeat split | exact I ] ].
  - reflexivity.
  - reflexivity.
  - cbn. lia.
Defined.

(** The same download into a directory that does not exist: it never
    settles and leaves no file. *)
Lemma download_into_missing_directory :
  let run :=
    downloadFile (host_env_of "darwin" mirror_server) 3
      "https://desktop.docker.com/mac/main/arm64/Docker.dmg"
      "/tmp/flumio-no-such-dir/Docker.dmg" fresh_host in
  fst run = Unsettled /\
  read_file "/tmp/flumio-no-such-dir/Docker.dmg" (snd run) = None /\
  files (snd run) = [] /\
  open_streams (snd run) = 3.
Proof. vm_compute. repeat split. Qed.

(** X6. A last answer that is neither a redirect nor 200 makes
    [downloadFile] reject with "Download failed with status" followed by
    the status (or "undefined").  This includes a 3xx answer without a
    usable Location header, which is not followed.  No stream is closed.
    The target file is left behind empty when the target can be opened;
    when it cannot, no file appears. *)
Theorem download_rejects_other_status :
  forall (henv : HostEnv) (hops : list string) (fuel : nat)
         (url p : string) (h : Host) (res : IncomingMessage),
    redirect_chain henv (get_calls h) url hops ->
    https_get_answer henv (get_calls h + length hops) (chain_end url hops) =
      Responds res ->
    is_redirect res = false ->
    statusCode res <> Some 200 ->
    length hops < fuel ->
    exists h',
      downloadFile henv fuel url p h =
        (Rejected (Error ("Download failed with status " ++
                          show_number (statusCode res))), h') /\
      read_file p h' =
        (if can_open henv p then Some EmptyString else read_file p h) /\
      requested (log h') = (requested (log h) ++ url :: hops)%list /\
      streams h' = (streams h ++ left_open p (S (length hops)))%list.
Proof.
  intros henv hops fuel url p h res Hchain Hans Hred Hbad Hfuel.
  replace fuel with (length hops + S (fuel - S (length hops))) by lia.
  destruct (downloadFile_chain henv p hops (S (fuel - S (length hops))) url h Hchain)
    as (hn & Hrun & Hc & Hs & Hr & Hf & Hp).
  rewrite Hrun, downloadFile_S, Hc, Hans, Hred.
  destruct (number_is_not (statusCode res) 200) eqn:Hnot;
    [ | apply number_is_not_200 in Hnot; contradiction ].
  eexists. split; [ reflexivity | ].
  destruct (requesting_calls henv (chain_end url hops) p hn) as (_ & Er & Ee & _).
  split; [ | split ].
  - rewrite Ee. destruct (can_open henv p); [ reflexivity | apply Hp; reflexivity ].
  - rewrite Er, Hr, <- app_assoc, chain_requests. reflexivity.
  - cbn [requesting streams]. rewrite Hs, <- app_assoc, left_open_snoc.
    reflexivity.
Qed.

Lemma download_rejects_other_status_witness :
  exists h',
    downloadFile (host_env_of "win32" mirror_server) 1
      "https://cdn.docker.com/moved" "C:/Temp/DockerDesktopInstaller.exe"
      fresh_host =
      (Rejected (Error "Download failed with status 302"), h') /\
    read_file "C:/Temp/DockerDesktopInstaller.exe" h' = Some EmptyString /\
    requested (log h') = ["https://cdn.docker.com/moved"] /\
    streams h' =
      [{| ws_path := "C:/Temp/DockerDesktopInstaller.exe"; ws_closed := false |}].
Proof.
  apply (download_rejects_other_status (host_env_of "win32" mirror_server)
           [] 1 "https://cdn.docker.com/moved" "C:/Temp/DockerDesktopInstaller.exe"
           fresh_host
           {| statusCode := Some 302; location := None; body := "moved" |}).
  - exact I.
  - reflexivity.
  - reflexivity.
  - discriminate.
  - cbn. lia.
Defined.

(** X7. When the last call of [get] fails, [downloadFile] rejects with
    the error of that call, in either of the two ways a call can fail.
    If the request emits "error", the stream of that request is closed
    first.  If [get] itself throws (as it does for a relative or
    non-https address, for instance one taken from a Location header),
    the stream of that request stays open.  The streams of the redirects
    followed before stay open in both cases.  The target file is left
    behind empty when the target can be opened; when it cannot, no file
    appears. *)
Theorem download_rejects_on_failed_request :
  forall (henv : HostEnv) (hops : list string) (fuel : nat)
         (url p : string) (h : Host) (answer : GetAnswer) (err : JsError),
    redirect_chain henv (get_calls h) url hops ->
    https_get_answer henv (get_calls h + length hops) (chain_end url hops) =
      answer ->
    answer = Fails err \/ answer = Refuses err ->
    length hops < fuel ->
    exists h',
      downloadFile henv fuel url p h = (Rejected err, h') /\
      read_file p h' =
        (if can_open henv p then Some EmptyString else read_file p h) /\
      requested (log h') = (requested (log h) ++ url :: hops)%list /\
      streams h' =
        (streams h ++ left_open p (length hops) ++
         [{| ws_path := p;
             ws_closed := match answer with Fails _ => true | _ => false end |}])%list.
Proof.
  intros henv hops fuel url p h answer err Hchain Hans Hkind Hfuel.
  replace fuel with (length hops + S (fuel - S (length hops))) by lia.
  destruct (downloadFile_chain henv p hops (S (fuel - S (length hops))) url h Hchain)
    as (hn & Hrun & Hc & Hs & Hr & Hf & Hp).
  rewrite Hrun, downloadFile_S, Hc, Hans.
  destruct (requesting_calls henv (chain_end url hops) p hn) as (_ & Er & Ee & _).
  assert (Hfile : read_file p (requesting henv (chain_end url hops) p hn) =
                  (if can_open henv p then Some EmptyString else read_file p h)).
  { rewrite Ee. destruct (can_open henv p); [ reflexivity | apply Hp; reflexivity ]. }
  destruct Hkind as [-> | ->].
  - eexists. split; [ reflexivity | ]. split; [ | split ].
    + rewrite <- Hfile. apply read_file_files. reflexivity.
    + cbn [given_up log]. rewrite requested_app, Er, Hr. cbn [requested].
      rewrite app_nil_r, <- app_assoc, chain_requests. reflexivity.
    + cbn [given_up requesting streams]. rewrite close_at_last, Hs, <- app_assoc.
      reflexivity.
  - eexists. split; [ reflexivity | ]. split; [ exact Hfile | split ].
    + rewrite Er, Hr, <- app_assoc, chain_requests. reflexivity.
    + cbn [requesting streams]. rewrite Hs, <- app_assoc. reflexivity.
Qed.

Lemma download_rejects_on_failed_request_witness :
  exists h',
    downloadFile (host_env_of "darwin" mirror_server) 2
      "https://cdn.docker.com/relative" "/tmp/Docker.dmg" fresh_host =
      (Rejected (TypeError "Invalid URL"), h') /\
    read_file "/tmp/Docker.dmg" h' = Some EmptyString /\
    requested (log h') = ["https://cdn.docker.com/relative"; "/b/Docker.dmg"] /\
    streams h' =
      [{| ws_path := "/tmp/Docker.dmg"; ws_closed := false |};
       {| ws_path := "/tmp/Docker.dmg"; ws_closed := false |}].
Proof.
  apply (download_rejects_on_failed_request (host_env_of "darwin" mirror_server)
           ["/b/Docker.dmg"] 2 "https://cdn.docker.com/relative" "/tmp/Docker.dmg"
           fresh_host (Refuses (TypeError "Invalid URL")) (TypeError "Invalid URL")).
  - cbn. split; [ eexists; repeat split | exact I ].
  - reflexivity.
  - right. reflexivity.
  - cbn. lia.
Defined.

(** An "error" of the request itself closes the stream before the
    rejection. *)
Lemma download_connection_refused :
  let run :=
    downloadFile (host_env_of "darwin" mirror_server) 1
      "https://cdn.docker.com/down" "/tmp/Docker.dmg" fresh_host in
  fst run = Rejected (Error "connect ECONNREFUSED") /\
  read_file "/tmp/Docker.dmg" (snd run) = Some EmptyString /\
  streams (snd run) = [{| ws_path := "/tmp/Docker.dmg"; ws_closed := true |}].
Proof. vm_compute. repeat split. Qed.

(** X8. [downloadFile] puts no bound on redirects.  If an address keeps
    redirecting to itself, the download never settles: however many
    requests it is allowed, it has used them all, opened a stream for
    each, closed none and is still waiting. *)
Theorem redirect_loop_never_settles :
  forall (henv : HostEnv) (url p : string) (res : IncomingMessage),
    (forall k, https_get_answer henv k url = Responds res) ->
    is_redirect res = true ->
    location res = Some url ->
    forall (fuel : nat) (h : Host),
    exists h',
      downloadFile henv fuel url p h = (Unsettled, h') /\
      get_calls h' = get_calls h + fuel /\
      streams h' = (streams h ++ left_open p fuel)%list.
Proof.
  intros henv url p res Hans Hred Hloc fuel.
  induction fuel as [ | fuel IH]; intros h.
  - exists h. cbn. rewrite app_nil_r, Nat.add_0_r. repeat split.
  - rewrite downloadFile_S, Hans, Hred, Hloc. cbn [string_value].
    destruct (IH (requesting henv url p h)) as (h' & Hrun & Hc & Hs).
    destruct (requesting_calls henv url p h) as (Ec & _).
    exists h'. split; [ exact Hrun | ]. split; [ lia | ].
    rewrite Hs. cbn. rewrite <- app_assoc. reflexivity.
Qed.

Lemma redirect_loop_never_settles_witness :
  exists h',
    downloadFile (host_env_of "darwin" mirror_server) 4
      "https://cdn.docker.com/loop" "/tmp/Docker.dmg" fresh_host =
      (Unsettled, h') /\
    get_calls h' = 0 + 4 /\
    streams h' = ([] ++ left_open "/tmp/Docker.dmg" 4)%list.
Proof.
  apply (redirect_loop_never_settles (host_env_of "darwin" mirror_server)
           "https://cdn.docker.com/loop" "/tmp/Docker.dmg"
           {| statusCode := Some 302;
              location := Some "https://cdn.docker.com/loop";
              body := EmptyString |});
    reflexivity.
Defined.

Lemma get_calls_log h h' evs :
  log h' = (log h ++ evs)%list -> filter is_get evs = [] ->
  get_calls h' = get_calls h.
Proof.
  intros Hl He. unfold get_calls. rewrite Hl, filter_app, He, app_nil_r.
  reflexivity.
Qed.

(** X9. Whatever the servers answer, a run of [downloadFile] writes to
    no file but the target, leaves the streams that existed before as
    they were, creates exactly one stream per request, all on the target,
    and closes at most one of them, the last; when it resolves it has
    closed that one. *)
Theorem download_touches_only_target :
  forall (henv : HostEnv) (fuel : nat) (url p : string) (h : Host),
    let h' := snd (downloadFile henv fuel url p h) in
    (forall q, q <> p -> read_file q h' = read_file q h) /\
    exists n final,
      streams h' = (streams h ++ left_open p n ++ final)%list /\
      (final = [] \/ final = [{| ws_path := p; ws_closed := true |}]) /\
      get_calls h' = get_calls h + n + length final /\
      (fst (downloadFile henv fuel url p h) = Resolved tt -> final <> []).
Proof.
  intros henv fuel. induction fuel as [ | fuel IH]; intros url p h.
  - cbn. split; [ auto | ]. exists 0, []. cbn. rewrite app_nil_r.
    repeat split; [ left; reflexivity | lia | discriminate ].
  - cbn zeta. rewrite downloadFile_S.
    destruct (requesting_calls henv url p h) as (Ec & _ & _ & Ef).
    assert (Hone : exists n final,
               streams (requesting henv url p h) =
                 (streams h ++ left_open p n ++ final)%list /\
               (final = [] \/ final = [{| ws_path := p; ws_closed := true |}]) /\
               S (get_calls h) = get_calls h + n + length final /\
               final = []).
    { exists 1, []. split; [ reflexivity | ]. split; [ left; reflexivity | ].
      split; [ cbn [length]; lia | reflexivity ]. }
    assert (Hclosed : exists n final,
               close_at (length (streams h)) (streams (requesting henv url p h)) =
                 (streams h ++ left_open p n ++ final)%list /\
               (final = [] \/ final = [{| ws_path := p; ws_closed := true |}]) /\
               S (get_calls h) = get_calls h + n + length final /\
               final <> []).
    { exists 0, [{| ws_path := p; ws_closed := true |}].
      cbn [requesting streams left_open repeat app length]. rewrite close_at_last.
      split; [ reflexivity | ]. split; [ right; reflexivity | ].
      split; [ lia | discriminate ]. }
    destruct (https_get_answer henv (get_calls h) url) as [res | err | err].
    + destruct (is_redirect res).
      * destruct (IH (string_value (location res)) p (requesting henv url p h))
          as (Hf & n & final & Hs & Hfin & Hc & Hres).
        split; [ intros q Hq; rewrite Hf by exact Hq; apply Ef; exact Hq | ].
        exists (S n), final. split; [ | split; [ exact Hfin | split ] ].
        -- rewrite Hs. cbn. rewrite <- app_assoc. reflexivity.
        -- rewrite Hc, Ec. lia.
        -- exact Hres.
      * destruct (number_is_not (statusCode res) 200); cbn [fst snd].
        -- split; [ exact Ef | ].
           destruct Hone as (n & final & Hs & Hfin & Hc & Hnil).
           exists n, final. rewrite Ec.
           split; [ exact Hs | ]. split; [ exact Hfin | ].
           split; [ exact Hc | discriminate ].
        -- destruct (can_open henv p); cbn [fst snd].
           ++ split.
              ** intros q Hq.
                 rewrite (read_file_other q p (body res) (requesting henv url p h))
                   by (reflexivity || exact Hq).
                 apply Ef. exact Hq.
              ** destruct Hclosed as (n & final & Hs & Hfin & Hc & Hne).
                 exists n, final.
                 rewrite (get_calls_log (requesting henv url p h) _
                            [HvPipe (length (streams h)); HvClose (length (streams h))])
                   by reflexivity.
                 rewrite Ec.
                 split; [ exact Hs | ]. split; [ exact Hfin | ].
                 split; [ exact Hc | intros _; exact Hne ].
           ++ split.
              ** intros q Hq. rewrite <- (Ef q Hq). apply read_file_files. reflexivity.
              ** destruct Hone as (n & final & Hs & Hfin & Hc & Hnil).
                 exists n, final.
                 rewrite (get_calls_log (requesting henv url p h) _
                            [HvPipe (length (streams h))])
                   by reflexivity.
                 rewrite Ec.
        split; [ exact Hs | ]. split; [ exact Hfin | ].
        split; [ exact Hc | discriminate ].
    + cbn [fst snd]. split.
      * intros q Hq. rewrite <- (Ef q Hq). apply read_file_files. reflexivity.
      * destruct Hclosed as (n & final & Hs & Hfin & Hc & Hne).
        exists n, final.
        rewrite (get_calls_log (requesting henv url p h) _ [HvClose (length (streams h))])
          by reflexivity.
        rewrite Ec.
        split; [ exact Hs | ]. split; [ exact Hfin | ].
        split; [ exact Hc | discriminate ].
    + cbn [fst snd]. split; [ exact Ef | ].
      destruct Hone as (n & final & Hs & Hfin & Hc & Hnil).
      exists n, final. rewrite Ec.
        split; [ exact Hs | ]. split; [ exact Hfin | ].
        split; [ exact Hc | discriminate ].
Qed.

(* ------------------------------------------------------------------ *)
(** ** [downloadAndOpenDockerInstaller] *)

(** X10. Despite its name, [downloadAndOpenDockerInstaller] never
    downloads or opens anything: on every platform [directUrl] is [null]
    when it is tested.  It always resolves, creates no stream, sends no
    request and writes no file.  On darwin and win32 it shows the
    "Download Docker manually" box and then opens the Docker web page,
    whatever button index the box reports; on any other platform it
    shows the "Auto-download not supported" error box and nothing
    else. *)
Theorem installer_never_downloads :
  forall (henv : HostEnv) (fuel : nat) (h : Host),
    let plat := platform (electron_env henv) in
    exists h',
      downloadAndOpenDockerInstaller henv fuel h = (Resolved tt, h') /\
      streams h' = streams h /\
      files h' = files h /\
      filter touches_disk_or_network (log h') =
        filter touches_disk_or_network (log h) /\
      log h' =
        (log h ++
         if String.eqb plat "darwin" || String.eqb plat "win32"
         then [HvMessageBox manualDownloadBox;
               HvOpenExternal "https://www.docker.com/products/docker-desktop/"]
         else [HvErrorBox
                 "Auto-download not supported"
                 "Automatic Docker installer download is only supported on macOS and Windows."])%list.
Proof.
  intros henv fuel h plat. subst plat.
  unfold downloadAndOpenDockerInstaller, chooseInstaller, hbind.
  destruct (String.eqb (platform (electron_env henv)) "darwin");
    [ | destruct (String.eqb (platform (electron_env henv)) "win32") ];
    cbn; eexists; (split; [ reflexivity | ]); cbn;
    rewrite ?filter_app, <- ?app_assoc; cbn; rewrite ?app_nil_r;
    repeat split.
Qed.
